(** * DOMProperty.js and DOMMarkupOperations.js: a shallow embedding

    The two modules under [src/renderers/dom/shared] are translated function
    by function.  JavaScript strings are sequences of UTF-16 code units,
    plain objects used as dictionaries are finite maps of their own
    properties, and a computation is a function on the module state that
    either returns or throws, the state surviving a throw as the mutations
    of a JavaScript function survive its exception. *)

From Stdlib Require Import ZArith NArith String Ascii.
From Stdlib Require Import Floats.SpecFloat.
From stdpp Require Import base option list gmap.

(** ** The JavaScript fragment the modules rely on *)

Module JS.

(** A string is its sequence of UTF-16 code units. *)
Abbreviation jsstring := (list N).

(** An ASCII literal of the source as a JavaScript string. *)
Definition js (s : string) : jsstring :=
  (λ a, N_of_ascii a) <$> list_ascii_of_string s.

(** Runtime values.  A number is a binary floating-point datum; the payload
    of objects, functions and symbols is an opaque reference, the modules
    never look inside. *)
Inductive jsvalue :=
| VUndefined
| VNull
| VBool (b : bool)
| VNumber (x : spec_float)
| VString (s : jsstring)
| VObject (ref : N)
| VFunction (ref : N)
| VSymbol (ref : N).

Inductive jstype :=
| TUndefined | TBoolean | TNumber | TString | TObject | TFunction | TSymbol.

(** [typeof value] *)
Definition typeof (v : jsvalue) : jstype :=
  match v with
  | VUndefined => TUndefined
  | VNull => TObject
  | VBool _ => TBoolean
  | VNumber _ => TNumber
  | VString _ => TString
  | VObject _ => TObject
  | VFunction _ => TFunction
  | VSymbol _ => TSymbol
  end.

(** [value == null] *)
Definition loosely_null (v : jsvalue) : bool :=
  match v with
  | VUndefined | VNull => true
  | _ => false
  end.

(** [value === true] *)
Definition strictly_true (v : jsvalue) : bool :=
  match v with
  | VBool true => true
  | _ => false
  end.

(** [value === 'literal'] *)
Definition strictly_string (v : jsvalue) (s : jsstring) : bool :=
  match v with
  | VString t => bool_decide (t = s)
  | _ => false
  end.

(** What a call can throw: a [TypeError] of the language, or the [Error]
    raised by [invariant(false, format, arg)] of fbjs. *)
Inductive error :=
| TypeError (message : jsstring)
| InvariantViolation (format : jsstring) (arg : jsstring).

Inductive result (A : Type) :=
| Ret (a : A)
| Throw (e : error).
Arguments Ret {A} a.
Arguments Throw {A} e.

(** [ToInt32], the conversion [&] applies to an integral number. *)
Definition toInt32 (z : Z) : Z :=
  let m := (z mod 2 ^ 32)%Z in
  if (2 ^ 31 <=? m)%Z then (m - 2 ^ 32)%Z else m.

(** [a & b] on integral numbers. *)
Definition bitand (a b : Z) : Z := Z.land (toInt32 a) (toInt32 b).

(** *** Plain objects ([{}]) used as dictionaries

    The map holds the own properties.  [hasOwnProperty] and the
    [__proto__] accessor live on [Object.prototype]; the values stored by
    the two modules (booleans, descriptors, strings) are never callable. *)
Section plain_object.
Context {V : Type}.

(** [o.hasOwnProperty(k)]: the method is looked up on [o] itself first,
    so an own property called [hasOwnProperty] shadows the inherited
    method and the call throws. *)
Definition obj_hasOwnProperty (what : string) (o : gmap jsstring V)
    (k : jsstring) : result bool :=
  match o !! js "hasOwnProperty" with
  | Some _ =>
      Throw (TypeError (js what ++ js ".hasOwnProperty is not a function"))
  | None => Ret (bool_decide (is_Some (o !! k)))
  end.

(** [o[k] = v]: the key [__proto__] reaches the inherited setter, which
    never creates an own property. *)
Definition obj_set (o : gmap jsstring V) (k : jsstring) (v : V)
    : gmap jsstring V :=
  if decide (k = js "__proto__") then o else <[k := v]> o.

(** [o[k]] *)
Definition obj_get (o : gmap jsstring V) (k : jsstring) : option V :=
  o !! k.
End plain_object.

(** An object enumerated by [for ... in]: its own enumerable properties
    in enumeration order. *)
Abbreviation enumerable V := (list (jsstring * V)).

(** An own property is written: an existing key keeps its place, a new one
    comes last. *)
Fixpoint enum_put {V} (o : enumerable V) (k : jsstring) (v : V)
    : enumerable V :=
  match o with
  | [] => [(k, v)]
  | (k', v') :: o' =>
      if decide (k' = k) then (k', v) :: o' else (k', v') :: enum_put o' k v
  end.

(** [o[k] = v] on such an object. *)
Definition enum_set {V} (o : enumerable V) (k : jsstring) (v : V)
    : enumerable V :=
  if decide (k = js "__proto__") then o else enum_put o k v.

(** [s.slice(0, n)] *)
Definition slice0 (n : nat) (s : jsstring) : jsstring := take n s.

(** What the host provides: [String.prototype.toLowerCase] of the language,
    the module [quoteAttributeValueForBrowser] required by
    DOMMarkupOperations.js, a function from a value to its quoted
    attribute-value literal, and the build flag [__DEV__]. *)
Class Host := {
  toLowerCase : jsstring → jsstring;
  quoteAttributeValueForBrowser : jsvalue → jsstring;
  __DEV__ : bool
}.

End JS.
Export JS.

(** ** Module state *)

(** The descriptor [propertyInfo] built by [injectDOMPropertyConfig]. *)
Record PropertyInfo := {
  mustUseProperty : bool;
  hasBooleanValue : bool;
  hasNumericValue : bool;
  hasPositiveNumericValue : bool;
  hasOverloadedBooleanValue : bool;
  hasStringBooleanValue : bool
}.

(** The mutable objects of the two modules.  [console] collects the
    development warnings and [regexTests] records each execution of
    [VALID_ATTRIBUTE_NAME_REGEX.test]; neither is read by the code. *)
Record heap := {
  properties : gmap jsstring PropertyInfo;
  illegalAttributeNameCache : gmap jsstring bool;
  validatedAttributeNameCache : gmap jsstring bool;
  console : list jsstring;
  regexTests : list jsstring
}.

(** A computation over the module state. *)
Definition M (A : Type) : Type := heap → result A * heap.

#[export] Instance M_ret : MRet M := λ A a h, (Ret a, h).
#[export] Instance M_bind : MBind M := λ A B f m h,
  match m h with
  | (Ret a, h') => f a h'
  | (Throw e, h') => (Throw e, h')
  end.

Definition throw {A} (e : error) : M A := λ h, (Throw e, h).

(** A pure call that may throw, lifted. *)
Definition lift {A} (r : result A) : M A := λ h, (r, h).

Definition get_heap : M heap := λ h, (Ret h, h).
Definition put_heap (h : heap) : M unit := λ _, (Ret tt, h).

(** [invariant(condition, format, arg)] of fbjs. *)
Definition invariant (condition : bool) (format : string) (arg : jsstring)
    : M unit :=
  if condition then mret tt else throw (InvariantViolation (js format) arg).

(** Did the call return, and did it fail with a configuration error? *)
Definition returns {A} (r : result A * heap) : Prop :=
  ∃ a, r.1 = Ret a.
Definition configuration_error {A} (r : result A * heap) : Prop :=
  ∃ format arg, r.1 = Throw (InvariantViolation format arg).
Definition configuration_error_naming {A} (propName : jsstring)
    (r : result A * heap) : Prop :=
  ∃ format, r.1 = Throw (InvariantViolation format propName).

Definition with_properties (h : heap) (p : gmap jsstring PropertyInfo) : heap :=
  {| properties := p;
     illegalAttributeNameCache := illegalAttributeNameCache h;
     validatedAttributeNameCache := validatedAttributeNameCache h;
     console := console h;
     regexTests := regexTests h |}.

(** ** DOMProperty.js *)

Module DOMProperty.

Definition RESERVED_PROPS : gmap jsstring bool :=
  list_to_map
    [ (js "children", true);
      (js "dangerouslySetInnerHTML", true);
      (js "autoFocus", true);
      (js "defaultValue", true);
      (js "defaultChecked", true);
      (js "innerHTML", true);
      (js "suppressContentEditableWarning", true);
      (js "style", true) ].

Definition checkMask (value bitmask : Z) : bool :=
  (bitand value bitmask =? bitmask)%Z.

(** *** The [value] attribute of an input

    What [setDOMValueAttribute] reads and writes of a DOM node: [node.type],
    the attributes, [node.validity] ([None] where the node has none) with
    its [badInput], and whether the node is
    [node.ownerDocument.activeElement]. *)
Record Node := {
  type : jsvalue;
  attributes : gmap jsstring jsstring;
  validity : option bool;
  active : bool
}.

Definition hasAttribute (node : Node) (name : jsstring) : bool :=
  bool_decide (is_Some (attributes node !! name)).

Definition getAttribute (node : Node) (name : jsstring) : option jsstring :=
  attributes node !! name.

Definition removeAttribute (node : Node) (name : jsstring) : Node :=
  {| type := type node;
     attributes := delete name (attributes node);
     validity := validity node;
     active := active node |}.

Definition setAttribute (node : Node) (name value : jsstring) : Node :=
  {| type := type node;
     attributes := <[name := value]> (attributes node);
     validity := validity node;
     active := active node |}.

Section string_conversion.
(** [value => '' + value], which throws on a symbol and on an object whose
    conversion throws. *)
Context (ToString : jsvalue → result jsstring).

Definition setDOMValueAttribute (node : Node) (value : jsvalue)
    : result Node :=
  if loosely_null value then Ret (removeAttribute node (js "value"))
  else if negb (strictly_string (type node) (js "number"))
          || negb (hasAttribute node (js "value"))
  then
    match ToString value with
    | Ret s => Ret (setAttribute node (js "value") s)
    | Throw e => Throw e
    end
  else if match validity node with
          | Some badInput => negb badInput && negb (active node)
          | None => false
          end
  then
    match ToString value with
    | Ret s => Ret (setAttribute node (js "value") s)
    | Throw e => Throw e
    end
  else Ret node.

(** [null] is [None]. *)
Definition getMutationMethod (propName : jsstring)
    : option (Node → jsvalue → result Node) :=
  if bool_decide (propName = js "value") then Some setDOMValueAttribute
  else None.
End string_conversion.

(** *** DOMPropertyInjection *)

Definition MUST_USE_PROPERTY : Z := 0x1.
Definition HAS_BOOLEAN_VALUE : Z := 0x4.
Definition HAS_NUMERIC_VALUE : Z := 0x8.
Definition HAS_POSITIVE_NUMERIC_VALUE : Z := Z.lor 0x10 0x8.
Definition HAS_OVERLOADED_BOOLEAN_VALUE : Z := 0x20.
Definition HAS_STRING_BOOLEAN_VALUE : Z := 0x40.

(** The config object: [Properties] may be missing, and maps a property
    name to its bitmask. *)
Record DOMPropertyConfig := {
  Properties : option (enumerable Z)
}.

Definition already_injected : string :=
  "injectDOMPropertyConfig(...): You're trying to inject DOM property '%s' which has already been injected. You may be accidentally injecting the same DOM property config twice, or you may be injecting two configs that have conflicting property names.".

Definition not_a_combination : string :=
  "DOMProperty: Value can be one of boolean, overloaded boolean, or numeric value, but not a combination: %s".

Definition decode (propConfig : Z) : PropertyInfo :=
  {| mustUseProperty := checkMask propConfig MUST_USE_PROPERTY;
     hasBooleanValue := checkMask propConfig HAS_BOOLEAN_VALUE;
     hasNumericValue := checkMask propConfig HAS_NUMERIC_VALUE;
     hasPositiveNumericValue :=
       checkMask propConfig HAS_POSITIVE_NUMERIC_VALUE;
     hasOverloadedBooleanValue :=
       checkMask propConfig HAS_OVERLOADED_BOOLEAN_VALUE;
     hasStringBooleanValue :=
       checkMask propConfig HAS_STRING_BOOLEAN_VALUE |}.

(** [hasBooleanValue + hasNumericValue + hasOverloadedBooleanValue]:
    booleans added as numbers. *)
Definition modes (propertyInfo : PropertyInfo) : nat :=
  Nat.b2n (hasBooleanValue propertyInfo)
  + Nat.b2n (hasNumericValue propertyInfo)
  + Nat.b2n (hasOverloadedBooleanValue propertyInfo).

(** The body of the [for (var propName in Properties)] loop. *)
Definition inject_entry (propName : jsstring) (propConfig : Z) : M unit :=
  h ← get_heap;
  registered ←
    lift (obj_hasOwnProperty "DOMProperty.properties" (properties h) propName);
  invariant (negb registered) already_injected propName;;
  let propertyInfo := decode propConfig in
  invariant (modes propertyInfo <=? 1) not_a_combination propName;;
  h ← get_heap;
  put_heap (with_properties h (obj_set (properties h) propName propertyInfo)).

Fixpoint for_in {V} (o : enumerable V) (body : jsstring → V → M unit)
    : M unit :=
  match o with
  | [] => mret tt
  | (k, v) :: o' => body k v;; for_in o' body
  end.

Definition injectDOMPropertyConfig (domPropertyConfig : DOMPropertyConfig)
    : M unit :=
  let Properties := default [] (Properties domPropertyConfig) in
  for_in Properties inject_entry.

(** *** Attribute-name syntax

    A character class of the regular expression is the list of its
    ranges of code units. *)
Definition ATTRIBUTE_NAME_START_CHAR : list (N * N) :=
  [ (58, 58); (65, 90); (95, 95); (97, 122);
    (0x00C0, 0x00D6); (0x00D8, 0x00F6); (0x00F8, 0x02FF);
    (0x0370, 0x037D); (0x037F, 0x1FFF); (0x200C, 0x200D);
    (0x2070, 0x218F); (0x2C00, 0x2FEF); (0x3001, 0xD7FF);
    (0xF900, 0xFDCF); (0xFDF0, 0xFFFD) ]%N.

Definition ATTRIBUTE_NAME_CHAR : list (N * N) :=
  ATTRIBUTE_NAME_START_CHAR
  ++ [ (45, 45); (46, 46); (48, 57); (0x00B7, 0x00B7);
       (0x0300, 0x036F); (0x203F, 0x2040) ]%N.

Definition ID_ATTRIBUTE_NAME : jsstring := js "data-reactid".
Definition ROOT_ATTRIBUTE_NAME : jsstring := js "data-reactroot".

(** *** Name tables built when the module is loaded *)

Definition attributeNames_literal : gmap jsstring jsstring :=
  list_to_map
    [ (js "acceptCharset", js "accept-charset");
      (js "className", js "class");
      (js "htmlFor", js "for");
      (js "httpEquiv", js "http-equiv") ].

Definition is_az (c : N) : bool := ((97 <=? c) && (c <=? 122))%N.

(** [token => token[1].toUpperCase()]: the token is a whole match of
    [CAMELIZE], so [token[1]] is in [a-z] and its upper case is 32 below. *)
Definition capitalize (token : jsstring) : jsstring :=
  match token !! 1%nat with
  | Some letter => [(letter - 32)%N]
  | None => []
  end.

(** [s.replace(CAMELIZE, capitalize)] with
    [CAMELIZE = /[\-\:]([a-z])/g]. *)
Fixpoint replace_CAMELIZE (s : jsstring) : jsstring :=
  match s with
  | [] => []
  | c :: rest =>
      match rest with
      | d :: rest' =>
          if (bool_decide (c = 45%N) || bool_decide (c = 58%N)) && is_az d
          then capitalize [c; d] ++ replace_CAMELIZE rest'
          else c :: replace_CAMELIZE rest
      | [] => [c]
      end
  end.

Definition svgConfig_literal : enumerable Z :=
  [ (js "autoReverse", HAS_STRING_BOOLEAN_VALUE);
    (js "externalResourcesRequired", HAS_STRING_BOOLEAN_VALUE);
    (js "preserveAlpha", HAS_STRING_BOOLEAN_VALUE) ].

Definition svgAttributeNames : list jsstring :=
  js <$>
  [ "accent-height"; "alignment-baseline"; "arabic-form"; "baseline-shift";
    "cap-height"; "clip-path"; "clip-rule"; "color-interpolation";
    "color-interpolation-filters"; "color-profile"; "color-rendering";
    "dominant-baseline"; "enable-background"; "fill-opacity"; "fill-rule";
    "flood-color"; "flood-opacity"; "font-family"; "font-size";
    "font-size-adjust"; "font-stretch"; "font-style"; "font-variant";
    "font-weight"; "glyph-name"; "glyph-orientation-horizontal";
    "glyph-orientation-vertical"; "horiz-adv-x"; "horiz-origin-x";
    "image-rendering"; "letter-spacing"; "lighting-color"; "marker-end";
    "marker-mid"; "marker-start"; "overline-position";
    "overline-thickness"; "paint-order"; "panose-1"; "pointer-events";
    "rendering-intent"; "shape-rendering"; "stop-color"; "stop-opacity";
    "strikethrough-position"; "strikethrough-thickness";
    "stroke-dasharray"; "stroke-dashoffset"; "stroke-linecap";
    "stroke-linejoin"; "stroke-miterlimit"; "stroke-opacity";
    "stroke-width"; "text-anchor"; "text-decoration"; "text-rendering";
    "underline-position"; "underline-thickness"; "unicode-bidi";
    "unicode-range"; "units-per-em"; "v-alphabetic"; "v-hanging";
    "v-ideographic"; "v-mathematical"; "vector-effect"; "vert-adv-y";
    "vert-origin-x"; "vert-origin-y"; "word-spacing"; "writing-mode";
    "x-height"; "xlink:actuate"; "xlink:arcrole"; "xlink:href";
    "xlink:role"; "xlink:show"; "xlink:title"; "xlink:type"; "xml:base";
    "xmlns:xlink"; "xml:lang"; "xml:space" ]%string.

(** The [forEach] over the list: both tables after the loop. *)
Definition module_tables : gmap jsstring jsstring * enumerable Z :=
  fold_left
    (λ tables svgAttributeName,
       let reactName := replace_CAMELIZE svgAttributeName in
       (obj_set tables.1 reactName svgAttributeName,
        enum_set tables.2 reactName 0%Z))
    svgAttributeNames
    (attributeNames_literal, svgConfig_literal).

Definition attributeNames : gmap jsstring jsstring := module_tables.1.

Definition svgConfig : DOMPropertyConfig :=
  {| Properties := Some module_tables.2 |}.

(** *** The exported object *)

Definition isReservedProp (name : jsstring) : result bool :=
  obj_hasOwnProperty "RESERVED_PROPS" RESERVED_PROPS name.

Definition getPropertyInfo (name : jsstring) : M (option PropertyInfo) :=
  h ← get_heap;
  known ←
    lift (obj_hasOwnProperty "DOMProperty.properties" (properties h) name);
  mret (if known : bool then obj_get (properties h) name else None).

(** [s[i] === 'c'] *)
Definition char_is (s : jsstring) (i : nat) (c : string) : bool :=
  match s !! i with
  | Some u => bool_decide ([u] = js c)
  | None => false
  end.

Section host.
Context `{Host}.

Definition shouldAttributeAcceptBooleanValue (name : jsstring) : M bool :=
  reserved ← lift (isReservedProp name);
  if reserved : bool then mret true
  else
    propertyInfo ← getPropertyInfo name;
    match propertyInfo with
    | Some propertyInfo =>
        mret (hasBooleanValue propertyInfo
              || hasStringBooleanValue propertyInfo
              || hasOverloadedBooleanValue propertyInfo)
    | None =>
        let prefix := slice0 5 (toLowerCase name) in
        mret (bool_decide (prefix = js "data-")
              || bool_decide (prefix = js "aria-"))
    end.

Definition shouldSetAttribute (name : jsstring) (value : jsvalue) : M bool :=
  reserved ← lift (isReservedProp name);
  if reserved : bool then mret false
  else if (char_is name 0 "o" || char_is name 0 "O")
          && (char_is name 1 "n" || char_is name 1 "N")
  then mret false
  else
    match value with
    | VNull => mret true
    | _ =>
        match typeof value with
        | TBoolean => shouldAttributeAcceptBooleanValue name
        | TUndefined | TNumber | TString | TObject => mret true
        | TFunction | TSymbol => mret false
        end
    end.

Definition getAttributeName (propName : jsstring) : result jsstring :=
  match obj_hasOwnProperty "attributeNames" attributeNames propName with
  | Throw e => Throw e
  | Ret true => Ret (default [] (obj_get attributeNames propName))
  | Ret false => Ret (toLowerCase propName)
  end.
End host.

Definition XML_NAMESPACE : jsstring :=
  js "http://www.w3.org/XML/1998/namespace".
Definition XLINK_NAMESPACE : jsstring :=
  js "http://www.w3.org/1999/xlink".

(** The [switch] compares with [===], case by case. *)
Definition getAttributeNamespace (propName : jsstring) : jsvalue :=
  if bool_decide (propName = js "xmlBase") then VString XML_NAMESPACE
  else if bool_decide (propName = js "xmlLang") then VString XML_NAMESPACE
  else if bool_decide (propName = js "xmlSpace") then VString XML_NAMESPACE
  else if bool_decide (propName = js "xlinkActuate")
  then VString XLINK_NAMESPACE
  else if bool_decide (propName = js "xlinkArcrole")
  then VString XLINK_NAMESPACE
  else if bool_decide (propName = js "xlinkHref") then VString XLINK_NAMESPACE
  else if bool_decide (propName = js "xlinkRole") then VString XLINK_NAMESPACE
  else if bool_decide (propName = js "xlinkShow") then VString XLINK_NAMESPACE
  else if bool_decide (propName = js "xlinkTitle")
  then VString XLINK_NAMESPACE
  else if bool_decide (propName = js "xlinkType") then VString XLINK_NAMESPACE
  else VNull.

(** The module body: every object starts empty, then
    [DOMProperty.injection.injectDOMPropertyConfig(svgConfig)] runs. *)
Definition empty_heap : heap :=
  {| properties := ∅;
     illegalAttributeNameCache := ∅;
     validatedAttributeNameCache := ∅;
     console := [];
     regexTests := [] |}.

Definition module_body : result unit * heap :=
  injectDOMPropertyConfig svgConfig empty_heap.

(** The state once both modules are loaded. *)
Definition loaded : heap := module_body.2.

End DOMProperty.

(** ** The object [module.exports = DOMProperty], as a requiring module
    reads it

    A data member is its value.  A method is [Some] function when the object
    literal of DOMProperty.js (lines 280-411) defines it, and [None] when it
    does not, which is how [DOMProperty.m] then reads: [undefined]. *)

Module Exports.
Record t := {
  ID_ATTRIBUTE_NAME : jsstring;
  ROOT_ATTRIBUTE_NAME : jsstring;
  ATTRIBUTE_NAME_START_CHAR : list (N * N);
  ATTRIBUTE_NAME_CHAR : list (N * N);
  shouldSetAttribute : option (jsstring → jsvalue → M bool);
  shouldIgnoreValue : option (jsstring → jsvalue → M jsvalue);
  getAttributeName : option (jsstring → result jsstring);
  getExpectedValueType : option (jsstring → M jsvalue)
}.
End Exports.

(** The keys of the object literal are [ID_ATTRIBUTE_NAME],
    [ROOT_ATTRIBUTE_NAME], [ATTRIBUTE_NAME_START_CHAR], [ATTRIBUTE_NAME_CHAR],
    [properties], [shouldSetAttribute], [getAttributeName],
    [getAttributeNamespace], [getMutationMethod], [getPropertyInfo],
    [shouldAttributeAcceptBooleanValue], [isReservedProp] and [injection]:
    neither [shouldIgnoreValue] nor [getExpectedValueType] is among them, and
    no statement of either file adds a member later. *)
Definition DOMProperty_exports `{Host} : Exports.t :=
  {| Exports.ID_ATTRIBUTE_NAME := DOMProperty.ID_ATTRIBUTE_NAME;
     Exports.ROOT_ATTRIBUTE_NAME := DOMProperty.ROOT_ATTRIBUTE_NAME;
     Exports.ATTRIBUTE_NAME_START_CHAR := DOMProperty.ATTRIBUTE_NAME_START_CHAR;
     Exports.ATTRIBUTE_NAME_CHAR := DOMProperty.ATTRIBUTE_NAME_CHAR;
     Exports.shouldSetAttribute := Some DOMProperty.shouldSetAttribute;
     Exports.shouldIgnoreValue := None;
     Exports.getAttributeName := Some DOMProperty.getAttributeName;
     Exports.getExpectedValueType := None |}.

(** [o.m(...)]: the member is read, then called. *)
Definition method {F} (member : option F) (name : string) : M F :=
  match member with
  | Some f => mret f
  | None => throw (TypeError (js name ++ js " is not a function"))
  end.

(** The truthiness of a value, as [||] and [if] take it. *)
Definition truthy (v : jsvalue) : bool :=
  match v with
  | VUndefined | VNull => false
  | VBool b => b
  | VNumber (S754_zero _) | VNumber S754_nan => false
| VNumber _ => true
  | VString s => negb (bool_decide (s = []))
  | VObject _ | VFunction _ | VSymbol _ => true
  end.

Definition with_validated (h : heap) (c : gmap jsstring bool) : heap :=
  {| properties := properties h;
     illegalAttributeNameCache := illegalAttributeNameCache h;
     validatedAttributeNameCache := c;
     console := console h;
     regexTests := regexTests h |}.

Definition with_illegal (h : heap) (c : gmap jsstring bool) : heap :=
  {| properties := properties h;
     illegalAttributeNameCache := c;
     validatedAttributeNameCache := validatedAttributeNameCache h;
     console := console h;
     regexTests := regexTests h |}.

Definition with_console (h : heap) (c : list jsstring) : heap :=
  {| properties := properties h;
     illegalAttributeNameCache := illegalAttributeNameCache h;
     validatedAttributeNameCache := validatedAttributeNameCache h;
     console := c;
     regexTests := regexTests h |}.

Definition with_regexTests (h : heap) (t : list jsstring) : heap :=
  {| properties := properties h;
     illegalAttributeNameCache := illegalAttributeNameCache h;
     validatedAttributeNameCache := validatedAttributeNameCache h;
     console := console h;
     regexTests := t |}.

(** ** DOMMarkupOperations.js *)

Module DOMMarkupOperations.

Section require.
Context `{Host} (DOMProperty : Exports.t).

Definition in_class (class : list (N * N)) (c : N) : bool :=
  existsb (λ range, (range.1 <=? c)%N && (c <=? range.2)%N) class.

(** [^[START][CHAR]*$], no flags: the whole string, one start
    character then name characters. *)
Definition VALID_ATTRIBUTE_NAME_REGEX (s : jsstring) : bool :=
  match s with
  | [] => false
  | c :: rest =>
      in_class (Exports.ATTRIBUTE_NAME_START_CHAR DOMProperty) c
      && forallb (in_class (Exports.ATTRIBUTE_NAME_CHAR DOMProperty)) rest
  end.

(** [VALID_ATTRIBUTE_NAME_REGEX.test(s)], recorded in [regexTests]. *)
Definition VALID_ATTRIBUTE_NAME_REGEX_test (s : jsstring) : M bool :=
  λ h, (Ret (VALID_ATTRIBUTE_NAME_REGEX s),
        with_regexTests h (regexTests h ++ [s])).

(** [warning(false, format, arg)] of fbjs: a message on the console. *)
Definition warning (message : jsstring) : M unit :=
  λ h, (Ret tt, with_console h (console h ++ [message])).

Definition isAttributeNameSafe (attributeName : jsstring) : M bool :=
  h ← get_heap;
  validated ←
    lift (obj_hasOwnProperty "validatedAttributeNameCache"
            (validatedAttributeNameCache h) attributeName);
  if validated : bool then mret true
  else
    illegal ←
      lift (obj_hasOwnProperty "illegalAttributeNameCache"
              (illegalAttributeNameCache h) attributeName);
    if illegal : bool then mret false
    else
      valid ← VALID_ATTRIBUTE_NAME_REGEX_test attributeName;
      h ← get_heap;
      if valid : bool then
        put_heap (with_validated h
          (obj_set (validatedAttributeNameCache h) attributeName true));;
        mret true
      else
        put_heap (with_illegal h
          (obj_set (illegalAttributeNameCache h) attributeName true));;
        (if __DEV__
         then warning (js "Warning: Invalid attribute name: `"
                       ++ attributeName ++ js "`")
         else mret tt);;
        mret false.

Definition createMarkupForID (id : jsvalue) : jsstring :=
  Exports.ID_ATTRIBUTE_NAME DOMProperty ++ js "="
  ++ quoteAttributeValueForBrowser id.

(** The two-character string of two double quotes. *)
Definition empty_literal : jsstring := [34; 34]%N.

Definition createMarkupForRoot : jsstring :=
  Exports.ROOT_ATTRIBUTE_NAME DOMProperty ++ js "=" ++ empty_literal.

Definition createMarkupForProperty (name : jsstring) (value : jsvalue)
    : M jsvalue :=
  shouldSetAttribute ←
    method (Exports.shouldSetAttribute DOMProperty)
      "DOMProperty.shouldSetAttribute";
  set ← shouldSetAttribute name value;
  skip ←
    (if negb set then mret true
     else
       shouldIgnoreValue ←
         method (Exports.shouldIgnoreValue DOMProperty)
           "DOMProperty.shouldIgnoreValue";
       ignored ← shouldIgnoreValue name value;
       mret (truthy ignored));
  if skip : bool then mret VNull
  else
    getAttributeName ←
      method (Exports.getAttributeName DOMProperty)
        "DOMProperty.getAttributeName";
    attributeName ← lift (getAttributeName name);
    getExpectedValueType ←
      method (Exports.getExpectedValueType DOMProperty)
        "DOMProperty.getExpectedValueType";
    expectedType ← getExpectedValueType name;
    if strictly_string expectedType (js "boolean")
       || (strictly_string expectedType (js "overloadedBoolean")
           && strictly_true value)
    then mret (VString (attributeName ++ js "=" ++ empty_literal))
    else mret (VString (attributeName ++ js "="
                        ++ quoteAttributeValueForBrowser value)).

Definition createMarkupForCustomAttribute (name : jsstring) (value : jsvalue)
    : M jsstring :=
  safe ← isAttributeNameSafe name;
  if negb safe || loosely_null value then mret (js "")
  else mret (name ++ js "=" ++ quoteAttributeValueForBrowser value).
End require.

End DOMMarkupOperations.

(** ** A concrete host, to run the modules on ASCII input

    Lower case on the letters [A-Z], every other code unit kept; a value is
    quoted by its string between double quotes when it is a string without
    special characters, which is all the examples use. *)
Definition ascii_toLowerCase (s : jsstring) : jsstring :=
  (λ c, if ((65 <=? c) && (c <=? 90))%N then (c + 32)%N else c) <$> s.

Definition plain_quote (v : jsvalue) : jsstring :=
  match v with
  | VString s => [34%N] ++ s ++ [34%N]
  | _ => [34; 34]%N
  end.

Definition ascii_host : Host :=
  {| toLowerCase := ascii_toLowerCase;
     quoteAttributeValueForBrowser := plain_quote;
     __DEV__ := true |}.

(** ** Vocabulary of the statements *)

(** The first two characters are [o] or [O], then [n] or [N]. *)
Definition on_prefix (name : jsstring) : Prop :=
  ∃ c0 c1 rest, name = c0 :: c1 :: rest
    ∧ (c0 = 111%N ∨ c0 = 79%N) ∧ (c1 = 110%N ∨ c1 = 78%N).

Definition reserved_names : list jsstring :=
  js <$> [ "children"; "dangerouslySetInnerHTML"; "autoFocus"; "defaultValue";
           "defaultChecked"; "innerHTML"; "suppressContentEditableWarning";
           "style" ]%string.

Definition xml_names : list jsstring :=
  js <$> [ "xmlBase"; "xmlLang"; "xmlSpace" ]%string.

Definition xlink_names : list jsstring :=
  js <$> [ "xlinkActuate"; "xlinkArcrole"; "xlinkHref"; "xlinkRole";
           "xlinkShow"; "xlinkTitle"; "xlinkType" ]%string.

(** The name is an own property of the registry. *)
Definition registered (R : gmap jsstring PropertyInfo) (name : jsstring)
    : bool :=
  bool_decide (is_Some (R !! name)).

(** The bitmask sets more than one of [HAS_BOOLEAN_VALUE],
    [HAS_NUMERIC_VALUE] and [HAS_OVERLOADED_BOOLEAN_VALUE]. *)
Definition conflicting (propConfig : Z) : bool :=
  (1 <? Nat.b2n (DOMProperty.checkMask propConfig DOMProperty.HAS_BOOLEAN_VALUE)
        + Nat.b2n (DOMProperty.checkMask propConfig
                     DOMProperty.HAS_NUMERIC_VALUE)
        + Nat.b2n (DOMProperty.checkMask propConfig
                     DOMProperty.HAS_OVERLOADED_BOOLEAN_VALUE))%nat.

(** An entry of a config that one of the two invariants rejects. *)
Definition offends (R : gmap jsstring PropertyInfo) (entry : jsstring * Z)
    : bool :=
  registered R entry.1 || conflicting entry.2.

(** The error that rejects it: the duplicate is checked first. *)
Definition rejection (R : gmap jsstring PropertyInfo) (entry : jsstring * Z)
    : error :=
  InvariantViolation
    (js (if registered R entry.1 then DOMProperty.already_injected
         else DOMProperty.not_a_combination))
    entry.1.

(** The registry once the entries are stored in turn. *)
Definition registry_after (R : gmap jsstring PropertyInfo) (P : enumerable Z)
    : gmap jsstring PropertyInfo :=
  foldl (λ R entry, obj_set R entry.1 (DOMProperty.decode entry.2)) R P.

(** At most one of the three value modes. *)
Definition one_mode (propertyInfo : PropertyInfo) : Prop :=
  (DOMProperty.modes propertyInfo ≤ 1)%nat.

(** The entries of a config in enumeration order, and their names. *)
Definition entries (c : DOMProperty.DOMPropertyConfig) : enumerable Z :=
  default [] (DOMProperty.Properties c).

Definition names (c : DOMProperty.DOMPropertyConfig) : list jsstring :=
  (entries c).*1.

(** The descriptor decoded from the bitmask [0]. *)
Definition no_facet : PropertyInfo :=
  {| mustUseProperty := false;
     hasBooleanValue := false;
     hasNumericValue := false;
     hasPositiveNumericValue := false;
     hasOverloadedBooleanValue := false;
     hasStringBooleanValue := false |}.

(** The names given to the attributes of the built-in SVG list. *)
Definition svg_react_names : list jsstring :=
  DOMProperty.replace_CAMELIZE <$> DOMProperty.svgAttributeNames.

(** Configs used as concrete inputs. *)
Definition config (P : enumerable Z) : DOMProperty.DOMPropertyConfig :=
  {| DOMProperty.Properties := Some P |}.

Definition boolean_and_numeric : Z :=
  Z.lor DOMProperty.HAS_BOOLEAN_VALUE DOMProperty.HAS_NUMERIC_VALUE.

#[export] Instance PropertyInfo_eq_dec : EqDecision PropertyInfo.
Proof. solve_decision. Defined.

(** The caches answer through the inherited [hasOwnProperty]. *)
Definition inherited_hasOwnProperty (h : heap) : Prop :=
  validatedAttributeNameCache h !! js "hasOwnProperty" = None
  ∧ illegalAttributeNameCache h !! js "hasOwnProperty" = None.

(** What the caches hold agrees with the regular expression. *)
Definition cache_consistent (D : Exports.t) (h : heap) : Prop :=
  (∀ name, is_Some (validatedAttributeNameCache h !! name) →
           DOMMarkupOperations.VALID_ATTRIBUTE_NAME_REGEX D name = true)
  ∧ (∀ name, is_Some (illegalAttributeNameCache h !! name) →
             DOMMarkupOperations.VALID_ATTRIBUTE_NAME_REGEX D name = false).

(** The ASCII characters of an attribute name: letters, digits and the
    four characters [:], [_], [-] and [.]. *)
Definition ascii_name_char (c : N) : bool :=
  ((65 <=? c) && (c <=? 90) || (97 <=? c) && (c <=? 122)
   || (48 <=? c) && (c <=? 57)
   || (c =? 58) || (c =? 95) || (c =? 45) || (c =? 46))%N.

(** The ones a name can start with: letters, [:] and [_]. *)
Definition ascii_name_start (c : N) : bool :=
  ((65 <=? c) && (c <=? 90) || (97 <=? c) && (c <=? 122)
   || (c =? 58) || (c =? 95))%N.

(** The state after [isAttributeNameSafe] is called on each name in turn,
    whether a call returns or throws. *)
Definition validate_all `{Host} (D : Exports.t) (names : list jsstring)
    (h : heap) : heap :=
  foldl (λ h name, (DOMMarkupOperations.isAttributeNameSafe D name h).2)
    h names.

(** The six facets are read from the bits 0, 2, 3, 4, 5 and 6. *)
Definition facet_bits : Z := 0x7D.

(** The test [shouldSetAttribute] makes on the first two characters. *)
Definition on_test (name : jsstring) : bool :=
  (DOMProperty.char_is name 0 "o" || DOMProperty.char_is name 0 "O")
  && (DOMProperty.char_is name 1 "n" || DOMProperty.char_is name 1 "N").

(** The answer on a boolean for a name without descriptor: the lower-cased
    name starts with [data-] or [aria-]. *)
Definition data_or_aria `{Host} (name : jsstring) : bool :=
  bool_decide (slice0 5 (toLowerCase name) = js "data-")
  || bool_decide (slice0 5 (toLowerCase name) = js "aria-").

(** A match of [CAMELIZE] starts here: [-] or [:], then a letter of
    [a-z]. *)
Definition camel_pair (c d : N) : bool :=
  (bool_decide (c = 45%N) || bool_decide (c = 58%N)) && DOMProperty.is_az d.

(** The string has a match of [CAMELIZE]. *)
Fixpoint has_camel_pair (s : jsstring) : bool :=
  match s with
  | c :: rest =>
      match rest with
      | d :: _ => camel_pair c d || has_camel_pair rest
      | [] => false
      end
  | [] => false
  end.

(** A number input that has a [value] attribute and is without validity
    state, reports bad input, or holds the focus. *)
Definition held_back (node : DOMProperty.Node) : bool :=
  strictly_string (DOMProperty.type node) (js "number")
  && DOMProperty.hasAttribute node (js "value")
  && match DOMProperty.validity node with
     | Some badInput => badInput || DOMProperty.active node
     | None => true
     end.

#[export] Instance spec_float_eq_dec : EqDecision spec_float.
Proof. solve_decision. Defined.

#[export] Instance jsvalue_eq_dec : EqDecision jsvalue.
Proof. solve_decision. Defined.

(** Whether a descriptor lets a boolean through. *)
Definition accepts_boolean (propertyInfo : PropertyInfo) : bool :=
  hasBooleanValue propertyInfo
  || hasStringBooleanValue propertyInfo
  || hasOverloadedBooleanValue propertyInfo.

(** * Properties *)

Ltac run :=
  unfold mbind, M_bind, mret, M_ret, lift, get_heap, put_heap, throw in *;
  simpl in *.

(** ** Name resolution *)

Lemma RESERVED_PROPS_hasOwnProperty :
  DOMProperty.RESERVED_PROPS !! js "hasOwnProperty" = None.
Proof. by vm_compute. Qed.

Lemma attributeNames_hasOwnProperty :
  DOMProperty.attributeNames !! js "hasOwnProperty" = None.
Proof. by vm_compute. Qed.

#[global] Opaque DOMProperty.RESERVED_PROPS DOMProperty.attributeNames.

(** Without an own [hasOwnProperty], the inherited method answers. *)
Lemma obj_hasOwnProperty_run {V} (what : string) (o : gmap jsstring V)
    (k : jsstring) :
  o !! js "hasOwnProperty" = None →
  obj_hasOwnProperty what o k = Ret (bool_decide (is_Some (o !! k))).
Proof. intros Hown. unfold obj_hasOwnProperty. by rewrite Hown. Qed.

(** With one, the call throws. *)
Lemma obj_hasOwnProperty_shadowed {V} (what : string) (o : gmap jsstring V)
    (k : jsstring) :
  is_Some (o !! js "hasOwnProperty") →
  obj_hasOwnProperty what o k
  = Throw (TypeError (js what ++ js ".hasOwnProperty is not a function")).
Proof. intros [v Hown]. unfold obj_hasOwnProperty. by rewrite Hown. Qed.

#[global] Opaque DOMProperty.module_tables DOMProperty.loaded.

Lemma isReservedProp_run (name : jsstring) :
  DOMProperty.isReservedProp name
  = Ret (bool_decide (is_Some (DOMProperty.RESERVED_PROPS !! name))).
Proof.
  apply obj_hasOwnProperty_run, RESERVED_PROPS_hasOwnProperty.
Qed.

Lemma reserved_names_registered (name : jsstring) :
  name ∈ reserved_names → is_Some (DOMProperty.RESERVED_PROPS !! name).
Proof.
  unfold reserved_names. rewrite !fmap_cons, !elem_of_cons, fmap_nil, elem_of_nil.
  intros Hn.
  repeat (destruct Hn as [-> | Hn]; [by vm_compute; exists true|]).
  destruct Hn.
Qed.

Section name_resolution.
Context `{Host}.

(** C5.  [getAttributeName] returns on every string, never throws and
    leaves the module state alone; an entry of [attributeNames] wins over
    lower-casing, and a name without one is lower-cased. *)
Theorem getAttributeName_total_and_pure (propName : jsstring) :
  DOMProperty.getAttributeName propName
  = Ret (default (toLowerCase propName)
           (DOMProperty.attributeNames !! propName))
  ∧ (∀ h h' : heap,
       (lift (DOMProperty.getAttributeName propName) h).1
       = (lift (DOMProperty.getAttributeName propName) h').1
       ∧ (lift (DOMProperty.getAttributeName propName) h).2 = h)
  ∧ DOMProperty.getAttributeName (js "className") = Ret (js "class")
  ∧ DOMProperty.getAttributeName (js "htmlFor") = Ret (js "for")
  ∧ DOMProperty.getAttributeName (js "httpEquiv") = Ret (js "http-equiv")
  ∧ DOMProperty.getAttributeName (js "acceptCharset")
    = Ret (js "accept-charset").
Proof.
  assert (Hgen : ∀ p, DOMProperty.getAttributeName p
     = Ret (default (toLowerCase p) (DOMProperty.attributeNames !! p))).
  { intros p. unfold DOMProperty.getAttributeName, obj_get.
    rewrite (obj_hasOwnProperty_run _ _ _ attributeNames_hasOwnProperty).
    by destruct (DOMProperty.attributeNames !! p). }
  split; [apply Hgen|]. split; [done|].
  rewrite !Hgen.
  repeat split; by vm_compute.
Qed.

(** C6.  [getAttributeNamespace] answers the XML namespace exactly on the
    three [xml*] names, the XLink namespace exactly on the seven [xlink*]
    names, and [null] exactly on every other string. *)
Theorem getAttributeNamespace_exact (propName : jsstring) :
  (DOMProperty.getAttributeNamespace propName
     = VString (js "http://www.w3.org/XML/1998/namespace")
   ↔ propName ∈ xml_names)
  ∧ (DOMProperty.getAttributeNamespace propName
       = VString (js "http://www.w3.org/1999/xlink")
     ↔ propName ∈ xlink_names)
  ∧ (DOMProperty.getAttributeNamespace propName = VNull
     ↔ (propName ∉ xml_names) ∧ (propName ∉ xlink_names)).
Proof.
  unfold xml_names, xlink_names.
  rewrite !fmap_cons, !fmap_nil, !elem_of_cons, !elem_of_nil.
  unfold DOMProperty.getAttributeNamespace.
  repeat case_bool_decide; subst;
    (split_and!; split; intros Hx; try done;
     try (by vm_compute in Hx);
     try (by vm_compute);
     try tauto).
  all: try (destruct_or!; destruct_and?; try done; subst; by vm_compute in *).
  all: try (exfalso; destruct Hx as [Hx1 Hx2]; (apply Hx1 || apply Hx2); tauto).
Qed.

(** C8.  [shouldSetAttribute] is false, whatever the registry holds, for a
    name that starts with [on] in any letter case, for a reserved name, and
    for a function or a symbol. *)
Theorem shouldSetAttribute_false (name : jsstring) (value : jsvalue)
    (h : heap) :
  on_prefix name
  ∨ name ∈ reserved_names
  ∨ typeof value = TFunction
  ∨ typeof value = TSymbol →
  DOMProperty.shouldSetAttribute name value h = (Ret false, h).
Proof.
  intros Hcase. unfold DOMProperty.shouldSetAttribute.
  run. rewrite isReservedProp_run. simpl.
  case_bool_decide as Hres; [done|].
  destruct Hcase as [(c0 & c1 & rest & -> & H0 & H1) | [Hr | Hty]].
  - assert (Hon : (DOMProperty.char_is (c0 :: c1 :: rest) 0 "o"
                   || DOMProperty.char_is (c0 :: c1 :: rest) 0 "O")
                  && (DOMProperty.char_is (c0 :: c1 :: rest) 1 "n"
                      || DOMProperty.char_is (c0 :: c1 :: rest) 1 "N") = true).
    { destruct H0 as [-> | ->], H1 as [-> | ->]; by vm_compute. }
    by rewrite Hon.
  - by apply reserved_names_registered in Hr.
  - destruct (_ && _); [done|].
    destruct value; simpl in Hty; destruct Hty; try done.
Qed.
End name_resolution.

(** The statement applied to ['onClick'] and a function. *)
Lemma shouldSetAttribute_false_witness :
  @DOMProperty.shouldSetAttribute ascii_host (js "onClick") (VFunction 0)
    DOMProperty.loaded
  = (Ret false, DOMProperty.loaded).
Proof.
  apply (@shouldSetAttribute_false ascii_host).
  left. exists 111%N, 110%N, (js "Click"). split; [reflexivity|]. tauto.
Defined.

(** ** Injection *)

Lemma with_properties_id (h : heap) : with_properties h (properties h) = h.
Proof. by destruct h. Qed.

Lemma obj_set_lookup_ne {V} (o : gmap jsstring V) (k k' : jsstring) (v : V) :
  k ≠ k' → obj_set o k v !! k' = o !! k'.
Proof.
  intros Hne. unfold obj_set. case_decide; [done|]. by rewrite lookup_insert_ne.
Qed.

Lemma obj_set_lookup {V} (o : gmap jsstring V) (k : jsstring) (v : V) :
  k ≠ js "__proto__" → obj_set o k v !! k = Some v.
Proof.
  intros Hne. unfold obj_set. case_decide; [done|]. by rewrite lookup_insert_eq.
Qed.

(** One turn of the loop, in a registry whose [hasOwnProperty] is the
    inherited one. *)
Lemma inject_entry_run (propName : jsstring) (propConfig : Z) (h : heap) :
  properties h !! js "hasOwnProperty" = None →
  DOMProperty.inject_entry propName propConfig h
  = if offends (properties h) (propName, propConfig)
    then (Throw (rejection (properties h) (propName, propConfig)), h)
    else (Ret tt,
          with_properties h
            (obj_set (properties h) propName (DOMProperty.decode propConfig))).
Proof.
  intros Hown. unfold DOMProperty.inject_entry, offends, rejection, invariant.
  run. rewrite (obj_hasOwnProperty_run _ _ _ Hown). simpl.
  unfold registered, conflicting, DOMProperty.modes. simpl.
  destruct (bool_decide (is_Some (properties h !! propName))); simpl; [done|].
  destruct (DOMProperty.checkMask propConfig DOMProperty.HAS_BOOLEAN_VALUE),
    (DOMProperty.checkMask propConfig DOMProperty.HAS_NUMERIC_VALUE),
    (DOMProperty.checkMask propConfig DOMProperty.HAS_OVERLOADED_BOOLEAN_VALUE);
    done.
Qed.

(** One turn of the loop once [hasOwnProperty] is shadowed. *)
Lemma inject_entry_shadowed (propName : jsstring) (propConfig : Z) (h : heap) :
  is_Some (properties h !! js "hasOwnProperty") →
  DOMProperty.inject_entry propName propConfig h
  = (Throw (TypeError (js "DOMProperty.properties.hasOwnProperty is not a function")),
     h).
Proof.
  intros Hown. unfold DOMProperty.inject_entry. run.
  by rewrite (obj_hasOwnProperty_shadowed _ _ _ Hown).
Qed.

Lemma registry_after_lookup_ne (P : enumerable Z) :
  ∀ (R : gmap jsstring PropertyInfo) (name : jsstring),
    name ∉ P.*1 → registry_after R P !! name = R !! name.
Proof.
  induction P as [|[k v] P IH]; intros R name Hnot; [done|].
  rewrite fmap_cons, not_elem_of_cons in Hnot. destruct Hnot as [Hk HP].
  unfold registry_after in *. simpl.
  rewrite IH by done. by apply obj_set_lookup_ne.
Qed.

Lemma offends_obj_set (R : gmap jsstring PropertyInfo) (k : jsstring)
    (pi : PropertyInfo) (entry : jsstring * Z) :
  entry.1 ≠ k → offends (obj_set R k pi) entry = offends R entry.
Proof.
  intros Hne. unfold offends, registered.
  by rewrite obj_set_lookup_ne.
Qed.

(** A config none of whose entries offends is stored whole. *)
Lemma for_in_accepts (P : enumerable Z) :
  ∀ h : heap,
    properties h !! js "hasOwnProperty" = None →
    js "hasOwnProperty" ∉ P.*1 →
    NoDup P.*1 →
    Forall (λ entry, offends (properties h) entry = false) P →
    DOMProperty.for_in P DOMProperty.inject_entry h
    = (Ret tt, with_properties h (registry_after (properties h) P)).
Proof.
  induction P as [|[k v] P IH]; intros h Hown Hnot Hdup Hok.
  - simpl. run. by rewrite with_properties_id.
  - rewrite fmap_cons, not_elem_of_cons in Hnot. destruct Hnot as [Hk HP].
    rewrite fmap_cons, NoDup_cons in Hdup. destruct Hdup as [HkP Hdup].
    rewrite Forall_cons in Hok. destruct Hok as [Hkv Hok].
    simpl. unfold mbind, M_bind.
    rewrite inject_entry_run by done. rewrite Hkv.
    rewrite IH; simpl; try done.
    + by rewrite obj_set_lookup_ne.
    + rewrite Forall_forall in *. intros entry Hin.
      rewrite offends_obj_set; [by apply Hok|].
      intros Heq. apply HkP. simpl. rewrite <- Heq.
      by apply list_elem_of_fmap_2.
Qed.

(** A config is stored up to its first offending entry, which names the
    error. *)
Lemma for_in_rejects (pre post : enumerable Z) (entry : jsstring * Z) :
  ∀ h : heap,
    properties h !! js "hasOwnProperty" = None →
    js "hasOwnProperty" ∉ pre.*1 →
    NoDup (pre ++ [entry]).*1 →
    Forall (λ entry, offends (properties h) entry = false) pre →
    offends (properties h) entry = true →
    DOMProperty.for_in (pre ++ entry :: post) DOMProperty.inject_entry h
    = (Throw (rejection (properties h) entry),
       with_properties h (registry_after (properties h) pre)).
Proof.
  induction pre as [|[k v] pre IH]; intros h Hown Hnot Hdup Hok Hbad.
  - destruct entry as [n m]. simpl. unfold mbind, M_bind.
    rewrite inject_entry_run by done. rewrite Hbad.
    by rewrite with_properties_id.
  - rewrite fmap_cons, not_elem_of_cons in Hnot. destruct Hnot as [Hk HP].
    simpl in Hdup. rewrite NoDup_cons in Hdup. destruct Hdup as [HkP Hdup].
    rewrite Forall_cons in Hok. destruct Hok as [Hkv Hok].
    assert (Hfresh : ∀ e, e ∈ pre ++ [entry] → e.1 ≠ k).
    { intros e He Heq. apply HkP. simpl. rewrite <- Heq.
      by apply list_elem_of_fmap_2. }
    simpl. unfold mbind, M_bind.
    rewrite inject_entry_run by done. rewrite Hkv.
    rewrite IH; simpl; try done.
    + unfold rejection, registered.
      rewrite obj_set_lookup_ne; [done|apply not_eq_sym, Hfresh; set_solver].
    + by rewrite obj_set_lookup_ne.
    + rewrite Forall_forall in *. intros e Hin.
      rewrite offends_obj_set; [by apply Hok|]. apply Hfresh. set_solver.
    + rewrite offends_obj_set; [done|]. apply Hfresh. set_solver.
Qed.

Lemma first_offender (R : gmap jsstring PropertyInfo) (P : enumerable Z) :
  (∃ entry, entry ∈ P ∧ offends R entry = true) →
  ∃ pre entry post,
    P = pre ++ entry :: post
    ∧ Forall (λ entry, offends R entry = false) pre
    ∧ offends R entry = true.
Proof.
  induction P as [|e P IH]; intros (entry & Hin & Hbad).
  - by apply elem_of_nil in Hin.
  - destruct (offends R e) eqn:He.
    + by exists [], e, P.
    + apply elem_of_cons in Hin. destruct Hin as [-> | Hin]; [congruence|].
      destruct IH as (pre & e' & post & -> & Hpre & He'); [by eauto|].
      exists (e :: pre), e', post. split_and!; [done| |done].
      by constructor.
Qed.

(** Whatever the registry holds, a turn of the loop either throws and
    leaves it as it was, or stores a descriptor of one mode at most. *)
Lemma inject_entry_cases (propName : jsstring) (propConfig : Z) (h : heap) :
  (∃ e, DOMProperty.inject_entry propName propConfig h = (Throw e, h))
  ∨ (one_mode (DOMProperty.decode propConfig)
     ∧ DOMProperty.inject_entry propName propConfig h
       = (Ret tt,
          with_properties h
            (obj_set (properties h) propName (DOMProperty.decode propConfig)))).
Proof.
  destruct (properties h !! js "hasOwnProperty") as [pi|] eqn:Hown.
  - left. eexists. apply inject_entry_shadowed. by eexists.
  - rewrite inject_entry_run by done.
    destruct (offends (properties h) (propName, propConfig)) eqn:Hbad.
    + left. by eexists.
    + right. split; [|done].
      unfold offends in Hbad. apply orb_false_elim in Hbad as [_ Hc].
      unfold conflicting in Hc. apply Nat.ltb_ge in Hc. exact Hc.
Qed.

(** X4.  Every descriptor of the registry has one mode at most, after an
    injection that returns and after one that throws. *)
Lemma injectDOMPropertyConfig_keeps_one_mode
    (c : DOMProperty.DOMPropertyConfig) (h : heap) :
  (∀ name pi, properties h !! name = Some pi → one_mode pi) →
  ∀ name pi,
    properties (DOMProperty.injectDOMPropertyConfig c h).2 !! name = Some pi →
    one_mode pi.
Proof.
  unfold DOMProperty.injectDOMPropertyConfig. fold (entries c).
  generalize (entries c). intros P. revert h.
  induction P as [|[k v] P IH]; intros h Hinv; [by apply Hinv|].
  simpl. unfold mbind, M_bind.
  destruct (inject_entry_cases k v h) as [[e ->] | [Hone ->]]; [by apply Hinv|].
  apply IH. simpl. intros name pi. unfold obj_set.
  case_decide; [by apply Hinv|].
  rewrite lookup_insert. case_decide; [|by apply Hinv].
  intros [= <-]. exact Hone.
Qed.

Lemma loaded_one_mode (name : jsstring) (pi : PropertyInfo) :
  properties DOMProperty.loaded !! name = Some pi → one_mode pi.
Proof.
  assert (Hall : map_Forall (λ _ propertyInfo, one_mode propertyInfo)
                   (properties DOMProperty.loaded)).
  { apply (bool_decide_unpack _). by vm_compute. }
  apply Hall.
Qed.

Lemma loaded_hasOwnProperty :
  properties DOMProperty.loaded !! js "hasOwnProperty" = None.
Proof. by vm_compute. Qed.

(** A config whose entries are accepted up to one that offends, none of its
    names being [hasOwnProperty], fails on that entry. *)
Lemma injectDOMPropertyConfig_rejects_at
    (c : DOMProperty.DOMPropertyConfig) (h : heap)
    (pre post : enumerable Z) (entry : jsstring * Z) :
  properties h !! js "hasOwnProperty" = None →
  js "hasOwnProperty" ∉ names c →
  NoDup (names c) →
  entries c = pre ++ entry :: post →
  Forall (λ entry, offends (properties h) entry = false) pre →
  offends (properties h) entry = true →
  DOMProperty.injectDOMPropertyConfig c h
  = (Throw (rejection (properties h) entry),
     with_properties h (registry_after (properties h) pre)).
Proof.
  intros Hown Hnot Hdup HP Hpre He. unfold names in *.
  unfold DOMProperty.injectDOMPropertyConfig. fold (entries c). rewrite HP.
  rewrite HP in Hnot, Hdup.
  replace (pre ++ entry :: post) with ((pre ++ [entry]) ++ post) in Hnot, Hdup
    by by rewrite <- app_assoc.
  rewrite fmap_app in Hnot, Hdup.
  apply not_elem_of_app in Hnot as [Hnot _].
  apply NoDup_app in Hdup as (Hdup & _ & _).
  rewrite fmap_app in Hnot. apply not_elem_of_app in Hnot as [Hnot _].
  by apply for_in_rejects.
Qed.

(** A config with an offending entry fails on its first offending entry. *)
Lemma injectDOMPropertyConfig_rejects
    (c : DOMProperty.DOMPropertyConfig) (h : heap) :
  properties h !! js "hasOwnProperty" = None →
  js "hasOwnProperty" ∉ names c →
  NoDup (names c) →
  (∃ entry, entry ∈ entries c ∧ offends (properties h) entry = true) →
  ∃ pre entry post,
    entries c = pre ++ entry :: post
    ∧ Forall (λ entry, offends (properties h) entry = false) pre
    ∧ offends (properties h) entry = true
    ∧ DOMProperty.injectDOMPropertyConfig c h
      = (Throw (rejection (properties h) entry),
         with_properties h (registry_after (properties h) pre)).
Proof.
  intros Hown Hnot Hdup Hbad.
  destruct (first_offender _ _ Hbad) as (pre & entry & post & HP & Hpre & He).
  exists pre, entry, post. split_and!; try done.
  by apply injectDOMPropertyConfig_rejects_at with post.
Qed.

(** C3, as the code has it.  From a registry whose [hasOwnProperty] is the
    inherited one, and for configs that do not name a property
    [hasOwnProperty]: two configs with disjoint names, no entry of which is
    registered already or sets more than one value mode, are injected one
    after the other without failure; and a config that names a registered
    property fails with a configuration error, which names the first entry
    in enumeration order that is registered or sets more than one mode, so
    the registered property itself when no entry before it is such. *)
Theorem injectDOMPropertyConfig_disjoint_or_redeclared
    (h : heap) (c1 c2 c : DOMProperty.DOMPropertyConfig) (name : jsstring) :
  properties h !! js "hasOwnProperty" = None →
  js "hasOwnProperty" ∉ names c1 ++ names c2 ++ names c →
  NoDup (names c1) → NoDup (names c2) → NoDup (names c) →
  (names c1 ## names c2 →
   Forall (λ entry, offends (properties h) entry = false)
     (entries c1 ++ entries c2) →
   ∃ h1 h2,
     DOMProperty.injectDOMPropertyConfig c1 h = (Ret tt, h1)
     ∧ DOMProperty.injectDOMPropertyConfig c2 h1 = (Ret tt, h2))
  ∧ (name ∈ names c → registered (properties h) name = true →
     configuration_error (DOMProperty.injectDOMPropertyConfig c h)
     ∧ (∃ pre entry post,
          entries c = pre ++ entry :: post
          ∧ Forall (λ entry, offends (properties h) entry = false) pre
          ∧ offends (properties h) entry = true
          ∧ (DOMProperty.injectDOMPropertyConfig c h).1
            = Throw (rejection (properties h) entry))
     ∧ (∀ pre propConfig post,
          entries c = pre ++ (name, propConfig) :: post →
          Forall (λ entry, offends (properties h) entry = false) pre →
          (DOMProperty.injectDOMPropertyConfig c h).1
          = Throw (InvariantViolation (js DOMProperty.already_injected)
                     name))).
Proof.
  intros Hown Hnot Hdup1 Hdup2 Hdup.
  rewrite !not_elem_of_app in Hnot. destruct Hnot as (Hn1 & Hn2 & Hn).
  split.
  - intros Hdisj Hok. apply Forall_app in Hok as [Hok1 Hok2].
    unfold DOMProperty.injectDOMPropertyConfig. fold (entries c1) (entries c2).
    eexists _, _. split; [by apply for_in_accepts|].
    apply for_in_accepts; simpl; try done.
    + by rewrite registry_after_lookup_ne.
    + rewrite Forall_forall in *. intros entry Hin.
      unfold offends, registered. rewrite registry_after_lookup_ne.
      * by apply Hok2.
      * intros Hin1. apply (Hdisj entry.1); [done|].
        by apply list_elem_of_fmap_2.
  - intros Hin Hreg.
    destruct (injectDOMPropertyConfig_rejects c h) as
      (pre & entry & post & HP & Hpre & Hbad & Hrun); try done.
    { unfold names in Hin. apply list_elem_of_fmap_1 in Hin as ([n m] & -> & Hin).
      exists (n, m). split; [done|]. unfold offends. by rewrite Hreg. }
    split_and!.
    + unfold configuration_error, rejection. rewrite Hrun. by eexists _, _.
    + exists pre, entry, post. rewrite Hrun. split_and!; done.
    + intros pre' propConfig post' HP' Hpre'.
      rewrite (injectDOMPropertyConfig_rejects_at c h pre' post'
                 (name, propConfig)); try done.
      * unfold rejection. simpl. by rewrite Hreg.
      * unfold offends. simpl. by rewrite Hreg.
Qed.

(** The statement at the loaded module: [{a: HAS_BOOLEAN_VALUE}] then
    [{b: HAS_NUMERIC_VALUE}] are accepted, [{strokeWidth: 0}] is rejected
    by name. *)
Lemma injectDOMPropertyConfig_disjoint_or_redeclared_witness :
  (∃ h1 h2,
     DOMProperty.injectDOMPropertyConfig
       (config [(js "a", DOMProperty.HAS_BOOLEAN_VALUE)]) DOMProperty.loaded
     = (Ret tt, h1)
     ∧ DOMProperty.injectDOMPropertyConfig
         (config [(js "b", DOMProperty.HAS_NUMERIC_VALUE)]) h1
       = (Ret tt, h2))
  ∧ (DOMProperty.injectDOMPropertyConfig
       (config [(js "strokeWidth", 0%Z)]) DOMProperty.loaded).1
    = Throw (InvariantViolation (js DOMProperty.already_injected)
               (js "strokeWidth")).
Proof.
  destruct (injectDOMPropertyConfig_disjoint_or_redeclared
              DOMProperty.loaded
              (config [(js "a", DOMProperty.HAS_BOOLEAN_VALUE)])
              (config [(js "b", DOMProperty.HAS_NUMERIC_VALUE)])
              (config [(js "strokeWidth", 0%Z)])
              (js "strokeWidth")) as [Haccept Hreject].
  - by vm_compute.
  - apply (bool_decide_unpack _). by vm_compute.
  - apply (bool_decide_unpack _). by vm_compute.
  - apply (bool_decide_unpack _). by vm_compute.
  - apply (bool_decide_unpack _). by vm_compute.
  - split.
    + apply Haccept.
      * intros x Ha Hb. vm_compute in Ha, Hb.
        apply list_elem_of_singleton in Ha, Hb. congruence.
      * apply Forall_cons. split; [by vm_compute|].
        apply Forall_cons. split; [by vm_compute|]. apply Forall_nil_2.
    + destruct Hreject as (_ & _ & Hname).
      * apply (bool_decide_unpack _). by vm_compute.
      * by vm_compute.
      * apply (Hname [] 0%Z []); [reflexivity|apply Forall_nil_2].
Defined.

(** C3 as stated fails: [{a: HAS_BOOLEAN_VALUE | HAS_NUMERIC_VALUE}] and
    [{b: 0}] have disjoint names and the first is rejected, in the loaded
    module as in an empty registry; and
    [{a: HAS_BOOLEAN_VALUE | HAS_NUMERIC_VALUE, strokeWidth: 0}] names the
    registered [strokeWidth] but the error names [a]. *)
Lemma injectDOMPropertyConfig_disjoint_counterexample :
  names (config [(js "a", boolean_and_numeric)]) ## names (config [(js "b", 0%Z)])
  ∧ ¬ returns (DOMProperty.injectDOMPropertyConfig
                 (config [(js "a", boolean_and_numeric)]) DOMProperty.loaded)
  ∧ ¬ returns (DOMProperty.injectDOMPropertyConfig
                 (config [(js "a", boolean_and_numeric)])
                 DOMProperty.empty_heap)
  ∧ js "strokeWidth"
    ∈ names (config [(js "a", boolean_and_numeric); (js "strokeWidth", 0%Z)])
  ∧ registered (properties DOMProperty.loaded) (js "strokeWidth") = true
  ∧ (DOMProperty.injectDOMPropertyConfig
       (config [(js "a", boolean_and_numeric); (js "strokeWidth", 0%Z)])
       DOMProperty.loaded).1
    = Throw (InvariantViolation (js DOMProperty.not_a_combination) (js "a"))
  ∧ ¬ configuration_error_naming (js "strokeWidth")
        (DOMProperty.injectDOMPropertyConfig
           (config [(js "a", boolean_and_numeric); (js "strokeWidth", 0%Z)])
           DOMProperty.loaded).
Proof.
  split_and!.
  - intros x Ha Hb. vm_compute in Ha, Hb.
    apply list_elem_of_singleton in Ha, Hb. congruence.
  - intros [u Hu]. vm_compute in Hu. discriminate.
  - intros [u Hu]. vm_compute in Hu. discriminate.
  - apply (bool_decide_unpack _). by vm_compute.
  - by vm_compute.
  - by vm_compute.
  - intros [format Hf]. vm_compute in Hf. discriminate.
Qed.

(** C4, at the failing input: [{hasOwnProperty: 0, a: HAS_BOOLEAN_VALUE |
    HAS_NUMERIC_VALUE}] has an entry of two modes, and the call throws a
    [TypeError] on reaching it, not a configuration error. *)
Theorem injectDOMPropertyConfig_two_modes_after_hasOwnProperty :
  conflicting boolean_and_numeric = true
  ∧ (DOMProperty.injectDOMPropertyConfig
       (config [(js "hasOwnProperty", 0%Z); (js "a", boolean_and_numeric)])
       DOMProperty.loaded).1
    = Throw (TypeError
               (js "DOMProperty.properties.hasOwnProperty is not a function"))
  ∧ ¬ configuration_error
        (DOMProperty.injectDOMPropertyConfig
           (config [(js "hasOwnProperty", 0%Z); (js "a", boolean_and_numeric)])
           DOMProperty.loaded).
Proof.
  split_and!.
  - by vm_compute.
  - by vm_compute.
  - intros (format & arg & Hf). vm_compute in Hf. discriminate.
Qed.

(** X8.  Short of that shadowing, an entry of two modes makes the injection fail
    with a configuration error. *)
Lemma injectDOMPropertyConfig_two_modes
    (c : DOMProperty.DOMPropertyConfig) (h : heap) (entry : jsstring * Z) :
  properties h !! js "hasOwnProperty" = None →
  js "hasOwnProperty" ∉ names c →
  NoDup (names c) →
  entry ∈ entries c →
  conflicting entry.2 = true →
  configuration_error (DOMProperty.injectDOMPropertyConfig c h).
Proof.
  intros Hown Hnot Hdup Hin Hbad.
  destruct (injectDOMPropertyConfig_rejects c h) as
    (pre & e & post & _ & _ & _ & Hrun); try done.
  { exists entry. split; [done|]. unfold offends. rewrite Hbad.
    by rewrite orb_true_r. }
  unfold configuration_error, rejection. rewrite Hrun. by eexists _, _.
Qed.

Lemma injectDOMPropertyConfig_two_modes_witness :
  configuration_error
    (DOMProperty.injectDOMPropertyConfig
       (config [(js "a", boolean_and_numeric)]) DOMProperty.loaded).
Proof.
  apply (injectDOMPropertyConfig_two_modes _ _ (js "a", boolean_and_numeric)).
  - by vm_compute.
  - apply (bool_decide_unpack _). by vm_compute.
  - apply (bool_decide_unpack _). by vm_compute.
  - apply (bool_decide_unpack _). by vm_compute.
  - by vm_compute.
Defined.

(** ** The registry of the loaded module *)

Lemma getPropertyInfo_run (name : jsstring) (h : heap) :
  properties h !! js "hasOwnProperty" = None →
  DOMProperty.getPropertyInfo name h = (Ret (properties h !! name), h).
Proof.
  intros Hown. unfold DOMProperty.getPropertyInfo. run.
  rewrite (obj_hasOwnProperty_run _ _ _ Hown). simpl. unfold obj_get.
  by destruct (properties h !! name).
Qed.

(** C10, with the failing input.  Loading the module injects [svgConfig]
    without failure; the three literal names then have a descriptor with
    [hasStringBooleanValue], every name derived from the SVG list has the
    descriptor without facet, [xlinkHref] and [strokeWidth] among them; but
    [{hasOwnProperty: 0, strokeWidth: 0}], which defines one of these names,
    throws a [TypeError] and not a configuration error. *)
Theorem svgConfig_injected_at_load :
  DOMProperty.module_body.1 = Ret tt
  ∧ Forall
      (λ name, ∃ propertyInfo,
         (DOMProperty.getPropertyInfo name DOMProperty.loaded).1
         = Ret (Some propertyInfo)
         ∧ hasStringBooleanValue propertyInfo = true)
      (js <$> ["autoReverse"; "externalResourcesRequired"; "preserveAlpha"]%string)
  ∧ Forall
      (λ name,
         (DOMProperty.getPropertyInfo name DOMProperty.loaded).1
         = Ret (Some no_facet))
      svg_react_names
  ∧ js "xlinkHref" ∈ svg_react_names
  ∧ js "strokeWidth" ∈ svg_react_names
  ∧ js "strokeWidth"
    ∈ names (config [(js "hasOwnProperty", 0%Z); (js "strokeWidth", 0%Z)])
  ∧ (DOMProperty.injectDOMPropertyConfig
       (config [(js "hasOwnProperty", 0%Z); (js "strokeWidth", 0%Z)])
       DOMProperty.loaded).1
    = Throw (TypeError
               (js "DOMProperty.properties.hasOwnProperty is not a function"))
  ∧ ¬ configuration_error
        (DOMProperty.injectDOMPropertyConfig
           (config [(js "hasOwnProperty", 0%Z); (js "strokeWidth", 0%Z)])
           DOMProperty.loaded).
Proof.
  split_and!.
  - by vm_compute.
  - repeat (apply Forall_cons; split;
            [eexists; rewrite getPropertyInfo_run by apply loaded_hasOwnProperty;
             split; [by vm_compute | reflexivity]|]).
    apply Forall_nil_2.
  - assert (Hall : Forall
      (λ name, properties DOMProperty.loaded !! name = Some no_facet)
      svg_react_names).
    { apply (bool_decide_unpack _). by vm_compute. }
    eapply Forall_impl; [exact Hall|].
    intros name Hname. simpl.
    rewrite getPropertyInfo_run by apply loaded_hasOwnProperty.
    simpl. f_equal. exact Hname.
  - apply (bool_decide_unpack _). by vm_compute.
  - apply (bool_decide_unpack _). by vm_compute.
  - apply (bool_decide_unpack _). by vm_compute.
  - by vm_compute.
  - intros (format & arg & Hf). vm_compute in Hf. discriminate.
Qed.

(** X9.  Short of that shadowing, a config that defines a name of the loaded
    registry fails with a configuration error, in every later state of the
    registry as well since no entry is ever removed. *)
Lemma injectDOMPropertyConfig_registered_name
    (c : DOMProperty.DOMPropertyConfig) (h : heap) (name : jsstring) :
  properties h !! js "hasOwnProperty" = None →
  js "hasOwnProperty" ∉ names c →
  NoDup (names c) →
  name ∈ names c →
  registered (properties h) name = true →
  configuration_error (DOMProperty.injectDOMPropertyConfig c h).
Proof.
  intros Hown Hnot Hdup Hin Hreg.
  destruct (injectDOMPropertyConfig_rejects c h) as
    (pre & e & post & _ & _ & _ & Hrun); try done.
  { unfold names in Hin.
    apply list_elem_of_fmap_1 in Hin as ([n m] & -> & Hin).
    exists (n, m). split; [done|]. unfold offends. by rewrite Hreg. }
  unfold configuration_error, rejection. rewrite Hrun. by eexists _, _.
Qed.

(** ** Markup generation *)

Section markup.
Context `{Host}.

(** [var DOMProperty = require('DOMProperty')] *)
Abbreviation DOMProperty := DOMProperty_exports.

(** C7, at the failing inputs.  ['hasOwnProperty'] is a valid name: the
    first call answers [true] and stores it, which shadows the method of
    the cache, and the second call throws.  ['__proto__'] is a valid name
    that no cache can hold: both calls answer [true], and both run the
    regular expression. *)
Theorem isAttributeNameSafe_not_idempotent :
  let first :=
    DOMMarkupOperations.isAttributeNameSafe DOMProperty
      (js "hasOwnProperty") DOMProperty.loaded in
  let second :=
    DOMMarkupOperations.isAttributeNameSafe DOMProperty
      (js "hasOwnProperty") first.2 in
  let proto1 :=
    DOMMarkupOperations.isAttributeNameSafe DOMProperty
      (js "__proto__") DOMProperty.loaded in
  let proto2 :=
    DOMMarkupOperations.isAttributeNameSafe DOMProperty
      (js "__proto__") proto1.2 in
  DOMMarkupOperations.VALID_ATTRIBUTE_NAME_REGEX DOMProperty
    (js "hasOwnProperty") = true
  ∧ first.1 = Ret true
  ∧ second.1
    = Throw (TypeError
        (js "validatedAttributeNameCache.hasOwnProperty is not a function"))
  ∧ proto1.1 = Ret true
  ∧ proto2.1 = Ret true
  ∧ regexTests proto2.2 = [js "__proto__"; js "__proto__"].
Proof. split_and!; by vm_compute. Qed.

(** C2, at the failing inputs.  [createMarkupForProperty('id', 'main')]
    throws a [TypeError], and so does
    [createMarkupForCustomAttribute('data-x', 'v')] once the attribute
    [hasOwnProperty] has been rendered. *)
Theorem markup_generation_throws :
  let rendered :=
    DOMMarkupOperations.createMarkupForCustomAttribute DOMProperty
      (js "hasOwnProperty") (VString (js "x")) DOMProperty.loaded in
  (DOMMarkupOperations.createMarkupForProperty DOMProperty
     (js "id") (VString (js "main")) DOMProperty.loaded).1
  = Throw (TypeError (js "DOMProperty.shouldIgnoreValue is not a function"))
  ∧ rendered.1
    = Ret (js "hasOwnProperty="
           ++ quoteAttributeValueForBrowser (VString (js "x")))
  ∧ (DOMMarkupOperations.createMarkupForCustomAttribute DOMProperty
       (js "data-x") (VString (js "v")) rendered.2).1
    = Throw (TypeError
        (js "validatedAttributeNameCache.hasOwnProperty is not a function")).
Proof. split_and!; by vm_compute. Qed.

(** C1, as the code has it.  The call answers [null] when
    [shouldSetAttribute] is false; when it is true the call reads
    [DOMProperty.shouldIgnoreValue], which the exported object does not
    have, and throws: no markup is ever returned, as for ['title'] and
    ['x']. *)
Theorem createMarkupForProperty_stops_at_shouldIgnoreValue
    (name : jsstring) (value : jsvalue) (h : heap) :
  DOMMarkupOperations.createMarkupForProperty DOMProperty name value h
  = match DOMProperty.shouldSetAttribute name value h with
    | (Ret true, h') =>
        (Throw (TypeError
                  (js "DOMProperty.shouldIgnoreValue is not a function")),
         h')
    | (Ret false, h') => (Ret VNull, h')
    | (Throw e, h') => (Throw e, h')
    end
  ∧ (DOMProperty.shouldSetAttribute (js "title") (VString (js "x"))
       DOMProperty.loaded).1 = Ret true
  ∧ (DOMMarkupOperations.createMarkupForProperty DOMProperty
       (js "title") (VString (js "x")) DOMProperty.loaded).1
    = Throw (TypeError
               (js "DOMProperty.shouldIgnoreValue is not a function")).
Proof.
  split_and!; [|by vm_compute..].
  unfold DOMMarkupOperations.createMarkupForProperty. simpl. run.
  destruct (DOMProperty.shouldSetAttribute name value h) as [[[]|e] h'];
    reflexivity.
Qed.

(** [createMarkupForCustomAttribute] calls [isAttributeNameSafe] first and
    keeps the state it leaves, also when the value is [null]; when the
    validator throws, so does the call.  On a verdict the result is the empty
    string when the verdict is false or the value is [null] or [undefined],
    and the name, [=] and the quoted value otherwise, the name taken as it
    is.  In the loaded module ['data-x'] with [null] gives the empty string
    and ['data-x'] with ['v'] gives [data-x=] and the quoted ['v']. *)
Lemma createMarkupForCustomAttribute_on_verdict
    (name : jsstring) (value : jsvalue) (h : heap) :
  DOMMarkupOperations.createMarkupForCustomAttribute DOMProperty name value h
  = match DOMMarkupOperations.isAttributeNameSafe DOMProperty name h with
    | (Ret safe, h') =>
        (Ret (if negb safe || loosely_null value then js ""
              else name ++ js "=" ++ quoteAttributeValueForBrowser value),
         h')
    | (Throw e, h') => (Throw e, h')
    end
  ∧ (DOMMarkupOperations.createMarkupForCustomAttribute DOMProperty
       (js "data-x") VNull DOMProperty.loaded).1 = Ret (js "")
  ∧ (DOMMarkupOperations.createMarkupForCustomAttribute DOMProperty
       (js "data-x") VUndefined DOMProperty.loaded).1 = Ret (js "")
  ∧ (DOMMarkupOperations.createMarkupForCustomAttribute DOMProperty
       (js "data-x") (VString (js "v")) DOMProperty.loaded).1
    = Ret (js "data-x=" ++ quoteAttributeValueForBrowser (VString (js "v")))
  ∧ (quoteAttributeValueForBrowser (VString (js "v"))
     = [34%N] ++ js "v" ++ [34%N] →
     (DOMMarkupOperations.createMarkupForCustomAttribute DOMProperty
        (js "data-x") (VString (js "v")) DOMProperty.loaded).1
     = Ret (js "data-x=" ++ [34%N] ++ js "v" ++ [34%N])).
Proof.
  assert (Hv : (DOMMarkupOperations.createMarkupForCustomAttribute DOMProperty
       (js "data-x") (VString (js "v")) DOMProperty.loaded).1
    = Ret (js "data-x=" ++ quoteAttributeValueForBrowser (VString (js "v"))))
    by by vm_compute.
  split_and!; [|by vm_compute|by vm_compute|exact Hv|].
  - unfold DOMMarkupOperations.createMarkupForCustomAttribute.
    unfold mbind at 1. unfold M_bind.
    destruct (DOMMarkupOperations.isAttributeNameSafe _ name h)
      as [[safe|e] h']; [|reflexivity].
    by destruct (negb safe || loosely_null value).
  - intros Hquote. rewrite Hv. by rewrite Hquote.
Qed.

(** C9, at the failing input.  Once the attribute [hasOwnProperty] has been
    rendered, [createMarkupForCustomAttribute('data-x', null)] throws a
    [TypeError] where the empty string is expected, the validator being
    called before the value is looked at. *)
Theorem createMarkupForCustomAttribute_after_hasOwnProperty :
  let rendered :=
    DOMMarkupOperations.createMarkupForCustomAttribute DOMProperty
      (js "hasOwnProperty") (VString (js "x")) DOMProperty.loaded in
  DOMMarkupOperations.VALID_ATTRIBUTE_NAME_REGEX DOMProperty (js "data-x")
  = true
  ∧ rendered.1
    = Ret (js "hasOwnProperty="
           ++ quoteAttributeValueForBrowser (VString (js "x")))
  ∧ (DOMMarkupOperations.createMarkupForCustomAttribute DOMProperty
       (js "data-x") VNull rendered.2).1
    = Throw (TypeError
        (js "validatedAttributeNameCache.hasOwnProperty is not a function"))
  ∧ (DOMMarkupOperations.createMarkupForCustomAttribute DOMProperty
       (js "data-x") VUndefined rendered.2).1
    = Throw (TypeError
        (js "validatedAttributeNameCache.hasOwnProperty is not a function")).
Proof. split_and!; by vm_compute. Qed.

(** The validator, while the caches answer through the inherited
    [hasOwnProperty]. *)
Lemma isAttributeNameSafe_run (D : Exports.t) (name : jsstring) (h : heap) :
  inherited_hasOwnProperty h →
  DOMMarkupOperations.isAttributeNameSafe D name h
  = if bool_decide (is_Some (validatedAttributeNameCache h !! name))
    then (Ret true, h)
    else if bool_decide (is_Some (illegalAttributeNameCache h !! name))
    then (Ret false, h)
    else
      let tested := with_regexTests h (regexTests h ++ [name]) in
      if DOMMarkupOperations.VALID_ATTRIBUTE_NAME_REGEX D name
      then (Ret true,
            with_validated tested
              (obj_set (validatedAttributeNameCache h) name true))
      else
        let stored :=
          with_illegal tested
            (obj_set (illegalAttributeNameCache h) name true) in
        (Ret false,
         if __DEV__
         then with_console stored
                (console h ++ [js "Warning: Invalid attribute name: `"
                               ++ name ++ js "`"])
         else stored).
Proof.
  intros [Hv Hi]. unfold DOMMarkupOperations.isAttributeNameSafe. run.
  rewrite (obj_hasOwnProperty_run _ _ _ Hv). simpl.
  destruct (bool_decide (is_Some (validatedAttributeNameCache h !! name)));
    [done|].
  rewrite (obj_hasOwnProperty_run _ _ _ Hi). simpl.
  destruct (bool_decide (is_Some (illegalAttributeNameCache h !! name)));
    [done|].
  unfold DOMMarkupOperations.VALID_ATTRIBUTE_NAME_REGEX_test.
  destruct (DOMMarkupOperations.VALID_ATTRIBUTE_NAME_REGEX D name); simpl;
    [done|].
  unfold DOMMarkupOperations.warning.
  by destruct __DEV__.
Qed.

(** X16.  Memoisation does hold for every name but ['hasOwnProperty'] and
    ['__proto__'], as long as the first has not been validated: the verdict
    is the one of the regular expression, and a second call returns it and
    leaves the state, the record of executed tests included, as it was. *)
Lemma isAttributeNameSafe_memoised (D : Exports.t) (name : jsstring)
    (h : heap) :
  inherited_hasOwnProperty h →
  cache_consistent D h →
  name ≠ js "hasOwnProperty" →
  name ≠ js "__proto__" →
  let first := DOMMarkupOperations.isAttributeNameSafe D name h in
  first.1 = Ret (DOMMarkupOperations.VALID_ATTRIBUTE_NAME_REGEX D name)
  ∧ inherited_hasOwnProperty first.2
  ∧ cache_consistent D first.2
  ∧ DOMMarkupOperations.isAttributeNameSafe D name first.2
    = (Ret (DOMMarkupOperations.VALID_ATTRIBUTE_NAME_REGEX D name), first.2).
Proof.
  intros Hinh [Hcv Hci] Hown Hproto. simpl.
  pose proof Hinh as [Hv Hi].
  rewrite isAttributeNameSafe_run by done.
  case_bool_decide as Hval.
  { simpl. rewrite isAttributeNameSafe_run by done.
    rewrite bool_decide_eq_true_2 by done. by rewrite (Hcv _ Hval). }
  case_bool_decide as Hill.
  { simpl. rewrite isAttributeNameSafe_run by done.
    rewrite bool_decide_eq_false_2 by done.
    rewrite bool_decide_eq_true_2 by done. by rewrite (Hci _ Hill). }
  simpl.
  destruct (DOMMarkupOperations.VALID_ATTRIBUTE_NAME_REGEX D name) eqn:Hre.
  - assert (Hinh' : inherited_hasOwnProperty
        (with_validated (with_regexTests h (regexTests h ++ [name]))
           (obj_set (validatedAttributeNameCache h) name true))).
    { split; simpl; [|done]. by rewrite obj_set_lookup_ne. }
    simpl. split_and!; try done.
    + split; simpl; [|done]. intros n. unfold obj_set.
      case_decide; [by apply Hcv|]. rewrite lookup_insert.
      case_decide; [by subst|by apply Hcv].
    + rewrite isAttributeNameSafe_run by done. simpl.
      rewrite obj_set_lookup by done. by rewrite bool_decide_eq_true_2.
  - assert (Hinh' : ∀ c, inherited_hasOwnProperty
        (with_console
           (with_illegal (with_regexTests h (regexTests h ++ [name]))
              (obj_set (illegalAttributeNameCache h) name true)) c)).
    { split; simpl; [done|]. by rewrite obj_set_lookup_ne. }
    assert (Hcons : ∀ c, cache_consistent D
        (with_console
           (with_illegal (with_regexTests h (regexTests h ++ [name]))
              (obj_set (illegalAttributeNameCache h) name true)) c)).
    { split; simpl; [done|]. intros n. unfold obj_set.
      case_decide; [by apply Hci|]. rewrite lookup_insert.
      case_decide; [by subst|by apply Hci]. }
    assert (Hagain : ∀ c,
      DOMMarkupOperations.isAttributeNameSafe D name
        (with_console
           (with_illegal (with_regexTests h (regexTests h ++ [name]))
              (obj_set (illegalAttributeNameCache h) name true)) c)
      = (Ret false,
         with_console
           (with_illegal (with_regexTests h (regexTests h ++ [name]))
              (obj_set (illegalAttributeNameCache h) name true)) c)).
    { intros c. rewrite isAttributeNameSafe_run by done. simpl.
      rewrite bool_decide_eq_false_2 by done.
      rewrite obj_set_lookup by done. by rewrite bool_decide_eq_true_2. }
    destruct __DEV__; simpl.
    + split_and!; [done|apply Hinh'|apply Hcons|apply Hagain].
    + specialize (Hinh' (console h)). specialize (Hcons (console h)).
      specialize (Hagain (console h)).
      split_and!; done.
Qed.

(** Had the exported object the two methods, returning without a change
    of state, the markup would be [null] for a value to ignore, the bare
    presence form for the type ['boolean'] and for ['overloadedBoolean']
    with [true], and the name with the quoted value otherwise. *)
Lemma createMarkupForProperty_with_methods (D : Exports.t)
    (shouldSetAttribute : jsstring → jsvalue → M bool)
    (shouldIgnoreValue : jsstring → jsvalue → M jsvalue)
    (getAttributeName : jsstring → result jsstring)
    (getExpectedValueType : jsstring → M jsvalue)
    (name : jsstring) (value : jsvalue) (h : heap)
    (set : bool) (ignored expectedType : jsvalue) (attributeName : jsstring) :
  Exports.shouldSetAttribute D = Some shouldSetAttribute →
  Exports.shouldIgnoreValue D = Some shouldIgnoreValue →
  Exports.getAttributeName D = Some getAttributeName →
  Exports.getExpectedValueType D = Some getExpectedValueType →
  shouldSetAttribute name value h = (Ret set, h) →
  shouldIgnoreValue name value h = (Ret ignored, h) →
  getAttributeName name = Ret attributeName →
  getExpectedValueType name h = (Ret expectedType, h) →
  DOMMarkupOperations.createMarkupForProperty D name value h
  = (Ret (if negb set || truthy ignored then VNull
          else if strictly_string expectedType (js "boolean")
                  || (strictly_string expectedType (js "overloadedBoolean")
                      && strictly_true value)
          then VString (attributeName ++ js "="
                        ++ DOMMarkupOperations.empty_literal)
          else VString (attributeName ++ js "="
                        ++ quoteAttributeValueForBrowser value)),
     h).
Proof.
  intros Hm1 Hm2 Hm3 Hm4 Hset Hign Hname Htype.
  unfold DOMMarkupOperations.createMarkupForProperty.
  rewrite Hm1, Hm2, Hm3, Hm4. simpl. run.
  rewrite Hset. destruct set; simpl; [|done].
  rewrite Hign. destruct (truthy ignored); simpl; [done|].
  rewrite Hname, Htype.
  by destruct (_ || _).
Qed.

(** The two markers never throw: they are strings. *)
Lemma createMarkupForRoot_literal :
  DOMMarkupOperations.createMarkupForRoot DOMProperty
  = js "data-reactroot=" ++ [34; 34]%N.
Proof. reflexivity. Qed.

Lemma createMarkupForID_literal (id : jsvalue) :
  DOMMarkupOperations.createMarkupForID DOMProperty id
  = js "data-reactid=" ++ quoteAttributeValueForBrowser id.
Proof. reflexivity. Qed.
End markup.

(** The statement with a host that quotes ['v'] as the three characters of
    ["v"] between double quotes. *)
Lemma createMarkupForCustomAttribute_on_verdict_witness :
  (@DOMMarkupOperations.createMarkupForCustomAttribute ascii_host
     (@DOMProperty_exports ascii_host)
     (js "data-x") (VString (js "v")) DOMProperty.loaded).1
  = Ret (js "data-x=" ++ [34%N] ++ js "v" ++ [34%N]).
Proof.
  apply (@createMarkupForCustomAttribute_on_verdict ascii_host
           (js "data-x") (VString (js "v")) DOMProperty.loaded).
  reflexivity.
Defined.

(** ** The scenarios of the specification, run on the ASCII host *)

Example scenario_createMarkupForRoot :
  DOMMarkupOperations.createMarkupForRoot (@DOMProperty_exports ascii_host)
  = js "data-reactroot=" ++ [34; 34]%N.
Proof. reflexivity. Qed.

Example scenario_getAttributeName :
  @DOMProperty.getAttributeName ascii_host (js "className") = Ret (js "class")
  ∧ @DOMProperty.getAttributeName ascii_host (js "unknownProp")
    = Ret (js "unknownprop")
  ∧ @DOMProperty.getAttributeName ascii_host (js "strokeWidth")
    = Ret (js "stroke-width").
Proof. split_and!; by vm_compute. Qed.

Example scenario_getAttributeNamespace :
  DOMProperty.getAttributeNamespace (js "xlinkHref")
  = VString (js "http://www.w3.org/1999/xlink")
  ∧ DOMProperty.getAttributeNamespace (js "id") = VNull.
Proof. split; by vm_compute. Qed.

Example scenario_shouldSetAttribute :
  (@DOMProperty.shouldSetAttribute ascii_host (js "onClick") (VFunction 0)
     DOMProperty.loaded).1 = Ret false
  ∧ (@DOMProperty.shouldSetAttribute ascii_host (js "title")
       (VString (js "x")) DOMProperty.loaded).1 = Ret true.
Proof. split; by vm_compute. Qed.

Example scenario_isAttributeNameSafe :
  let first :=
    @DOMMarkupOperations.isAttributeNameSafe ascii_host
      (@DOMProperty_exports ascii_host) (js "1bad-name") DOMProperty.loaded in
  let second :=
    @DOMMarkupOperations.isAttributeNameSafe ascii_host
      (@DOMProperty_exports ascii_host) (js "1bad-name") first.2 in
  (@DOMMarkupOperations.isAttributeNameSafe ascii_host
     (@DOMProperty_exports ascii_host) (js "data-foo") DOMProperty.loaded).1
  = Ret true
  ∧ first.1 = Ret false
  ∧ second.1 = Ret false
  ∧ regexTests first.2 = [js "1bad-name"]
  ∧ regexTests second.2 = [js "1bad-name"].
Proof. split_and!; by vm_compute. Qed.


(** * Further properties of the code *)

(** ** Decoding a bitmask *)

Lemma toInt32_testbit (z k : Z) :
  (0 ≤ k < 32)%Z → Z.testbit (toInt32 z) k = Z.testbit z k.
Proof.
  intros Hk. unfold toInt32. cbv zeta.
  destruct (2 ^ 31 <=? z mod 2 ^ 32)%Z.
  - rewrite <- (Z.mod_pow2_bits_low (z mod 2 ^ 32 - 2 ^ 32) 32 k) by lia.
    replace (z mod 2 ^ 32 - 2 ^ 32)%Z
      with (z mod 2 ^ 32 + (-1) * 2 ^ 32)%Z by lia.
    rewrite Z_mod_plus_full, Z.mod_mod by lia.
    apply Z.mod_pow2_bits_low. lia.
  - apply Z.mod_pow2_bits_low. lia.
Qed.

(** On a mask below [2^31], [&] is the conjunction of the integers: the
    wrap-around of its left operand does not show. *)
Lemma bitand_low (z mask : Z) :
  (0 ≤ mask < 2 ^ 31)%Z → bitand z mask = Z.land z mask.
Proof.
  intros Hm. unfold bitand.
  assert (Hmask : toInt32 mask = mask).
  { unfold toInt32. cbv zeta. rewrite Z.mod_small by lia.
    destruct (2 ^ 31 <=? mask)%Z eqn:Hle; [|done].
    apply Z.leb_le in Hle. lia. }
  rewrite Hmask. apply Z.bits_inj'. intros k Hk.
  rewrite !Z.land_spec.
  destruct (Z.lt_ge_cases k 32) as [Hlt | Hge].
  - by rewrite toInt32_testbit by lia.
  - assert (Hhigh : Z.testbit mask k = false).
    { rewrite <- (Z.mod_small mask (2 ^ 32)) by lia.
      apply Z.mod_pow2_bits_high. lia. }
    by rewrite Hhigh, !andb_false_r.
Qed.

Lemma checkMask_land (z mask : Z) :
  (0 ≤ mask < 2 ^ 31)%Z →
  DOMProperty.checkMask z mask = (Z.land z mask =? mask)%Z.
Proof. intros Hm. unfold DOMProperty.checkMask. by rewrite bitand_low. Qed.

(** A mask tested on [z & facet_bits] is tested on [z] when its bits are
    among the facet bits. *)
Lemma checkMask_facet_bits (z mask : Z) :
  (0 ≤ mask < 2 ^ 31)%Z →
  Z.land facet_bits mask = mask →
  DOMProperty.checkMask (Z.land z facet_bits) mask
  = DOMProperty.checkMask z mask.
Proof.
  intros Hm Hsub. rewrite !checkMask_land by done.
  by rewrite <- Z.land_assoc, Hsub.
Qed.

(** X1.  A descriptor decoded from any integer that has
    [hasPositiveNumericValue] has [hasNumericValue]. *)
Theorem decode_positive_is_numeric (propConfig : Z) :
  hasPositiveNumericValue (DOMProperty.decode propConfig) = true →
  hasNumericValue (DOMProperty.decode propConfig) = true.
Proof.
  simpl. rewrite !checkMask_land by (by vm_compute).
  intros Hpos. apply Z.eqb_eq in Hpos. apply Z.eqb_eq.
  replace DOMProperty.HAS_NUMERIC_VALUE
    with (Z.land DOMProperty.HAS_POSITIVE_NUMERIC_VALUE
            DOMProperty.HAS_NUMERIC_VALUE) at 1 by reflexivity.
  by rewrite Z.land_assoc, Hpos.
Qed.

Lemma decode_positive_is_numeric_witness :
  hasNumericValue (DOMProperty.decode DOMProperty.HAS_POSITIVE_NUMERIC_VALUE)
  = true.
Proof. apply decode_positive_is_numeric. reflexivity. Defined.

(** X2.  Only the bits 0, 2, 3, 4, 5 and 6 of a bitmask count: any integer,
    negative or beyond 32 bits, decodes as its conjunction with [0x7D]. *)
Theorem decode_reads_facet_bits (propConfig : Z) :
  DOMProperty.decode propConfig
  = DOMProperty.decode (Z.land propConfig facet_bits).
Proof.
  unfold DOMProperty.decode.
  by rewrite !checkMask_facet_bits by (by vm_compute).
Qed.

(** ** The registry under injection *)

(** A turn of the loop that returns stored a name that was not there. *)
Lemma inject_entry_outcomes (propName : jsstring) (propConfig : Z) (h : heap) :
  (∃ e, DOMProperty.inject_entry propName propConfig h = (Throw e, h))
  ∨ (properties h !! propName = None
     ∧ DOMProperty.inject_entry propName propConfig h
       = (Ret tt,
          with_properties h
            (obj_set (properties h) propName (DOMProperty.decode propConfig)))).
Proof.
  destruct (properties h !! js "hasOwnProperty") as [pi|] eqn:Hown.
  - left. eexists. apply inject_entry_shadowed. by eexists.
  - rewrite inject_entry_run by done.
    destruct (offends (properties h) (propName, propConfig)) eqn:Hbad.
    + left. by eexists.
    + right. split; [|done].
      unfold offends, registered in Hbad. simpl in Hbad.
      apply orb_false_elim in Hbad as [Hreg _].
      apply bool_decide_eq_false in Hreg.
      by apply eq_None_not_Some.
Qed.

(** X3.  The registry only grows: whatever the config and the state, and whether
    the call returns or throws, [injectDOMPropertyConfig] leaves every
    descriptor that was registered as it was, and touches neither cache nor
    the console. *)
Theorem injectDOMPropertyConfig_only_adds
    (c : DOMProperty.DOMPropertyConfig) (h : heap) :
  (∀ name propertyInfo,
     properties h !! name = Some propertyInfo →
     properties (DOMProperty.injectDOMPropertyConfig c h).2 !! name
     = Some propertyInfo)
  ∧ illegalAttributeNameCache (DOMProperty.injectDOMPropertyConfig c h).2
    = illegalAttributeNameCache h
  ∧ validatedAttributeNameCache (DOMProperty.injectDOMPropertyConfig c h).2
    = validatedAttributeNameCache h
  ∧ console (DOMProperty.injectDOMPropertyConfig c h).2 = console h
  ∧ regexTests (DOMProperty.injectDOMPropertyConfig c h).2 = regexTests h.
Proof.
  unfold DOMProperty.injectDOMPropertyConfig. fold (entries c).
  generalize (entries c). intros P. revert h.
  induction P as [|[k v] P IH]; intros h; [done|].
  simpl. unfold mbind, M_bind.
  destruct (inject_entry_outcomes k v h) as [[e ->] | [Hfresh ->]]; [done|].
  destruct (IH (with_properties h
                  (obj_set (properties h) k (DOMProperty.decode v))))
    as (Hkeep & Hi & Hv & Hc & Hr).
  split_and!; try done.
  intros name pi Hname. apply Hkeep. simpl.
  rewrite obj_set_lookup_ne; [done|]. intros ->. congruence.
Qed.

Lemma registry_after_lookup (P : enumerable Z) :
  ∀ (R : gmap jsstring PropertyInfo) (name : jsstring) (propConfig : Z),
    NoDup P.*1 →
    (name, propConfig) ∈ P →
    name ≠ js "__proto__" →
    registry_after R P !! name = Some (DOMProperty.decode propConfig).
Proof.
  induction P as [|[k v] P IH]; intros R name m Hdup Hin Hproto.
  - by apply elem_of_nil in Hin.
  - rewrite fmap_cons, NoDup_cons in Hdup. destruct Hdup as [HkP Hdup].
    unfold registry_after in *. simpl.
    apply elem_of_cons in Hin as [[= -> ->] | Hin].
    + fold (registry_after (obj_set R k (DOMProperty.decode v)) P).
      rewrite registry_after_lookup_ne by done.
      by apply obj_set_lookup.
    + by apply IH.
Qed.

(** X5.  Insert then look up.  After an injection that is accepted,
    [getPropertyInfo] answers the decoded bitmask on every name of the
    config but [__proto__], and what it answered before on every other
    name. *)
Theorem getPropertyInfo_after_injectDOMPropertyConfig
    (c : DOMProperty.DOMPropertyConfig) (h : heap) :
  properties h !! js "hasOwnProperty" = None →
  js "hasOwnProperty" ∉ names c →
  NoDup (names c) →
  Forall (λ entry, offends (properties h) entry = false) (entries c) →
  (DOMProperty.injectDOMPropertyConfig c h).1 = Ret tt
  ∧ (∀ name propConfig,
       (name, propConfig) ∈ entries c → name ≠ js "__proto__" →
       (DOMProperty.getPropertyInfo name
          (DOMProperty.injectDOMPropertyConfig c h).2).1
       = Ret (Some (DOMProperty.decode propConfig)))
  ∧ (∀ name,
       name ∉ names c →
       (DOMProperty.getPropertyInfo name
          (DOMProperty.injectDOMPropertyConfig c h).2).1
       = Ret (properties h !! name)).
Proof.
  intros Hown Hnot Hdup Hok.
  unfold DOMProperty.injectDOMPropertyConfig. fold (entries c).
  rewrite for_in_accepts by done. simpl.
  assert (Hown' : properties
            (with_properties h (registry_after (properties h) (entries c)))
          !! js "hasOwnProperty" = None).
  { simpl. by rewrite registry_after_lookup_ne. }
  split_and!; [done| |].
  - intros name m Hin Hproto. rewrite getPropertyInfo_run by done. simpl.
    f_equal. by apply registry_after_lookup.
  - intros name Hname. rewrite getPropertyInfo_run by done. simpl.
    f_equal. by apply registry_after_lookup_ne.
Qed.

Lemma getPropertyInfo_after_injectDOMPropertyConfig_witness :
  (DOMProperty.getPropertyInfo (js "checked")
     (DOMProperty.injectDOMPropertyConfig
        (config [(js "checked", DOMProperty.HAS_BOOLEAN_VALUE)])
        DOMProperty.loaded).2).1
  = Ret (Some (DOMProperty.decode DOMProperty.HAS_BOOLEAN_VALUE)).
Proof.
  destruct (getPropertyInfo_after_injectDOMPropertyConfig
              (config [(js "checked", DOMProperty.HAS_BOOLEAN_VALUE)])
              DOMProperty.loaded) as (_ & Hin & _).
  - by vm_compute.
  - apply (bool_decide_unpack _). by vm_compute.
  - apply (bool_decide_unpack _). by vm_compute.
  - apply Forall_cons. split; [by vm_compute|apply Forall_nil_2].
  - apply Hin.
    + apply list_elem_of_singleton. reflexivity.
    + apply (bool_decide_unpack _). by vm_compute.
Defined.



(** X7.  Injecting an accepted config a second time fails on its first entry,
    as already injected, unless that entry is named [__proto__]. *)
Theorem injectDOMPropertyConfig_twice
    (c : DOMProperty.DOMPropertyConfig) (h : heap)
    (name : jsstring) (propConfig : Z) (rest : enumerable Z) :
  properties h !! js "hasOwnProperty" = None →
  js "hasOwnProperty" ∉ names c →
  NoDup (names c) →
  Forall (λ entry, offends (properties h) entry = false) (entries c) →
  entries c = (name, propConfig) :: rest →
  name ≠ js "__proto__" →
  (DOMProperty.injectDOMPropertyConfig c h).1 = Ret tt
  ∧ (DOMProperty.injectDOMPropertyConfig c
       (DOMProperty.injectDOMPropertyConfig c h).2).1
    = Throw (InvariantViolation (js DOMProperty.already_injected) name).
Proof.
  intros Hown Hnot Hdup Hok HP Hproto.
  assert (Hfirst : DOMProperty.injectDOMPropertyConfig c h
    = (Ret tt, with_properties h (registry_after (properties h) (entries c)))).
  { unfold DOMProperty.injectDOMPropertyConfig. fold (entries c).
    by apply for_in_accepts. }
  rewrite Hfirst. simpl. split; [done|].
  assert (Hreg : registered (registry_after (properties h) (entries c)) name
                 = true).
  { unfold registered. apply bool_decide_eq_true.
    rewrite (registry_after_lookup _ _ name propConfig); [by eexists|done| |done].
    rewrite HP. apply elem_of_cons. by left. }
  rewrite (injectDOMPropertyConfig_rejects_at c _ [] rest (name, propConfig));
    simpl; try done.
  - unfold rejection. simpl. by rewrite Hreg.
  - by rewrite registry_after_lookup_ne.
  - unfold offends. simpl. by rewrite Hreg.
Qed.

Lemma injectDOMPropertyConfig_twice_witness :
  (DOMProperty.injectDOMPropertyConfig
     (config [(js "checked", DOMProperty.HAS_BOOLEAN_VALUE)])
     (DOMProperty.injectDOMPropertyConfig
        (config [(js "checked", DOMProperty.HAS_BOOLEAN_VALUE)])
        DOMProperty.loaded).2).1
  = Throw (InvariantViolation (js DOMProperty.already_injected)
             (js "checked")).
Proof.
  apply (injectDOMPropertyConfig_twice
           (config [(js "checked", DOMProperty.HAS_BOOLEAN_VALUE)])
           DOMProperty.loaded (js "checked") DOMProperty.HAS_BOOLEAN_VALUE []).
  - by vm_compute.
  - apply (bool_decide_unpack _). by vm_compute.
  - apply (bool_decide_unpack _). by vm_compute.
  - apply Forall_cons. split; [by vm_compute|apply Forall_nil_2].
  - reflexivity.
  - apply (bool_decide_unpack _). by vm_compute.
Defined.

(** ** Which attributes are written *)

Lemma on_test_on_prefix (name : jsstring) :
  on_test name = true ↔ on_prefix name.
Proof.
  unfold on_test, on_prefix, DOMProperty.char_is.
  change (js "o") with [111%N]. change (js "O") with [79%N].
  change (js "n") with [110%N]. change (js "N") with [78%N].
  destruct name as [|c0 [|c1 rest]]; simpl.
  - split; [done|]. by intros (? & ? & ? & ? & _).
  - rewrite andb_false_r. split; [done|]. by intros (? & ? & ? & ? & _).
  - rewrite andb_true_iff, !orb_true_iff, !bool_decide_eq_true. split.
    + intros [H0 H1]. exists c0, c1, rest. split; [done|].
      split; [destruct H0 as [[= ->]|[= ->]]|destruct H1 as [[= ->]|[= ->]]];
        tauto.
    + intros (d0 & d1 & r & [= -> -> ->] & H0 & H1).
      split; [destruct H0 as [->| ->]|destruct H1 as [->| ->]]; tauto.
Qed.

Lemma not_reserved (name : jsstring) :
  name ∉ reserved_names → DOMProperty.RESERVED_PROPS !! name = None.
Proof.
  intros Hnot. apply eq_None_not_Some. intros [b Hb]. apply Hnot.
  with_strategy transparent [DOMProperty.RESERVED_PROPS]
    (unfold DOMProperty.RESERVED_PROPS in Hb).
  apply elem_of_list_to_map_2 in Hb.
  unfold reserved_names.
  rewrite !fmap_cons, fmap_nil. rewrite !elem_of_cons in Hb.
  rewrite !elem_of_cons.
  repeat (destruct Hb as [[= -> _] | Hb]; [tauto|]).
  by apply elem_of_nil in Hb.
Qed.

Section written.
Context `{Host}.

(** [shouldSetAttribute], in full, in a registry whose [hasOwnProperty] is
    the inherited one. *)
Lemma shouldSetAttribute_run (name : jsstring) (value : jsvalue) (h : heap) :
  properties h !! js "hasOwnProperty" = None →
  DOMProperty.shouldSetAttribute name value h
  = (Ret (if bool_decide (is_Some (DOMProperty.RESERVED_PROPS !! name))
          then false
          else if on_test name then false
          else match typeof value, value with
               | _, VNull => true
               | TBoolean, _ =>
                   match properties h !! name with
                   | Some propertyInfo => accepts_boolean propertyInfo
                   | None => data_or_aria name
                   end
               | (TFunction | TSymbol), _ => false
               | _, _ => true
               end),
     h).
Proof.
  intros Hown. unfold DOMProperty.shouldSetAttribute. run.
  rewrite isReservedProp_run. simpl. fold (on_test name).
  case_bool_decide as Hres; [done|].
  destruct (on_test name); [done|].
  destruct value as [| |b| | | | |]; simpl; try done.
  unfold DOMProperty.shouldAttributeAcceptBooleanValue. run.
  rewrite isReservedProp_run. simpl.
  rewrite bool_decide_eq_false_2 by done.
  rewrite getPropertyInfo_run by done.
  by destruct (properties h !! name).
Qed.

(** X10.  Reading never writes: [getPropertyInfo],
    [shouldAttributeAcceptBooleanValue], [shouldSetAttribute] and
    [createMarkupForProperty] leave the state as it was, whether they return
    or throw. *)
Theorem property_decisions_read_only (name : jsstring) (value : jsvalue)
    (h : heap) :
  (DOMProperty.getPropertyInfo name h).2 = h
  ∧ (DOMProperty.shouldAttributeAcceptBooleanValue name h).2 = h
  ∧ (DOMProperty.shouldSetAttribute name value h).2 = h
  ∧ (DOMMarkupOperations.createMarkupForProperty DOMProperty_exports
       name value h).2 = h.
Proof.
  assert (Hget : ∀ n, (DOMProperty.getPropertyInfo n h).2 = h).
  { intros n. unfold DOMProperty.getPropertyInfo. run.
    by destruct (obj_hasOwnProperty _ _ _). }
  assert (Hacc : ∀ n, (DOMProperty.shouldAttributeAcceptBooleanValue n h).2 = h).
  { intros n. unfold DOMProperty.shouldAttributeAcceptBooleanValue. run.
    rewrite isReservedProp_run. simpl. case_bool_decide; [done|].
    specialize (Hget n).
    destruct (DOMProperty.getPropertyInfo n h) as [[[pi|]|e] h']; by simpl in *. }
  assert (Hset : ∀ n v, (DOMProperty.shouldSetAttribute n v h).2 = h).
  { intros n v. unfold DOMProperty.shouldSetAttribute. run.
    rewrite isReservedProp_run. simpl. case_bool_decide; [done|].
    destruct (_ && _); [done|].
    destruct v; simpl; try done; apply Hacc. }
  split_and!; [apply Hget|apply Hacc|apply Hset|].
  unfold DOMMarkupOperations.createMarkupForProperty. simpl. run.
  specialize (Hset name value).
  by destruct (DOMProperty.shouldSetAttribute name value h) as [[[]|e] h'].
Qed.

Lemma shouldSetAttribute_true (name : jsstring) (value : jsvalue)
    (h : heap) :
  name ∉ reserved_names →
  ¬ on_prefix name →
  typeof value ∈ [TUndefined; TNumber; TString; TObject] →
  DOMProperty.shouldSetAttribute name value h = (Ret true, h).
Proof.
  intros Hres Hon Hty. unfold DOMProperty.shouldSetAttribute. run.
  rewrite isReservedProp_run. simpl. fold (on_test name).
  rewrite (not_reserved _ Hres). simpl.
  destruct (on_test name) eqn:Htest; [by apply on_test_on_prefix in Htest|].
  rewrite !elem_of_cons in Hty.
  destruct value; simpl in *; try done;
    destruct Hty as [?|[?|[?|[?|Hnil]]]]; try done;
    by apply elem_of_nil in Hnil.
Qed.

(** X11.  Every name that is not reserved and does not start with [on] is
    written for [null], [undefined], a number, a string and an object,
    whatever the registry holds. *)
Theorem shouldSetAttribute_serialisable (name : jsstring) (value : jsvalue)
    (h : heap) :
  name ∉ reserved_names →
  ¬ on_prefix name →
  typeof value ∈ [TUndefined; TNumber; TString; TObject] →
  DOMProperty.shouldSetAttribute name value h = (Ret true, h).
Proof. apply shouldSetAttribute_true. Qed.


(** X13.  On a boolean, the registry decides: the descriptor of the name when it
    has one (boolean, string-boolean or overloaded boolean), and the prefix
    [data-] or [aria-] of the lower-cased name when it has none. *)
Theorem shouldSetAttribute_boolean (name : jsstring) (b : bool) (h : heap) :
  properties h !! js "hasOwnProperty" = None →
  name ∉ reserved_names →
  ¬ on_prefix name →
  DOMProperty.shouldSetAttribute name (VBool b) h
  = (Ret (match properties h !! name with
          | Some propertyInfo => accepts_boolean propertyInfo
          | None => data_or_aria name
          end),
     h).
Proof.
  intros Hown Hres Hon. rewrite shouldSetAttribute_run by done.
  rewrite (not_reserved _ Hres). simpl.
  destruct (on_test name) eqn:Htest; [by apply on_test_on_prefix in Htest|].
  done.
Qed.

(** X14.  Injection then decision.  After an accepted injection, a boolean is
    written for a name of the config exactly when its bitmask has
    [HAS_BOOLEAN_VALUE], [HAS_STRING_BOOLEAN_VALUE] or
    [HAS_OVERLOADED_BOOLEAN_VALUE], also for a name in [data-] or [aria-]. *)
Theorem shouldSetAttribute_boolean_after_injection
    (c : DOMProperty.DOMPropertyConfig) (h : heap)
    (name : jsstring) (propConfig : Z) (b : bool) :
  properties h !! js "hasOwnProperty" = None →
  js "hasOwnProperty" ∉ names c →
  NoDup (names c) →
  Forall (λ entry, offends (properties h) entry = false) (entries c) →
  (name, propConfig) ∈ entries c →
  name ≠ js "__proto__" →
  name ∉ reserved_names →
  ¬ on_prefix name →
  (DOMProperty.shouldSetAttribute name (VBool b)
     (DOMProperty.injectDOMPropertyConfig c h).2).1
  = Ret (DOMProperty.checkMask propConfig DOMProperty.HAS_BOOLEAN_VALUE
         || DOMProperty.checkMask propConfig
              DOMProperty.HAS_STRING_BOOLEAN_VALUE
         || DOMProperty.checkMask propConfig
              DOMProperty.HAS_OVERLOADED_BOOLEAN_VALUE).
Proof.
  intros Hown Hnot Hdup Hok Hin Hproto Hres Hon.
  unfold DOMProperty.injectDOMPropertyConfig. fold (entries c).
  rewrite for_in_accepts by done. simpl.
  rewrite shouldSetAttribute_run
    by (simpl; by rewrite registry_after_lookup_ne).
  rewrite (not_reserved _ Hres). simpl.
  destruct (on_test name) eqn:Htest; [by apply on_test_on_prefix in Htest|].
  by rewrite (registry_after_lookup _ _ _ propConfig).
Qed.
End written.

Lemma shouldSetAttribute_serialisable_witness :
  @DOMProperty.shouldSetAttribute ascii_host (js "title") (VString (js "x"))
    DOMProperty.loaded
  = (Ret true, DOMProperty.loaded).
Proof.
  apply (@shouldSetAttribute_serialisable ascii_host).
  - apply (bool_decide_unpack _). by vm_compute.
  - intros (c0 & c1 & rest & Heq & H0 & _).
    injection Heq as <- _. destruct H0 as [H0|H0]; discriminate H0.
  - simpl. rewrite !elem_of_cons. tauto.
Defined.


Lemma shouldSetAttribute_boolean_witness :
  @DOMProperty.shouldSetAttribute ascii_host (js "data-open") (VBool true)
    DOMProperty.loaded
  = (Ret (match properties DOMProperty.loaded !! js "data-open" with
          | Some propertyInfo => accepts_boolean propertyInfo
          | None => @data_or_aria ascii_host (js "data-open")
          end),
     DOMProperty.loaded).
Proof.
  apply (@shouldSetAttribute_boolean ascii_host).
  - by vm_compute.
  - apply (bool_decide_unpack _). by vm_compute.
  - intros (c0 & c1 & rest & Heq & H0 & _).
    injection Heq as <- _. destruct H0 as [H0|H0]; discriminate H0.
Defined.

Lemma shouldSetAttribute_boolean_after_injection_witness :
  (@DOMProperty.shouldSetAttribute ascii_host (js "checked") (VBool true)
     (DOMProperty.injectDOMPropertyConfig
        (config [(js "checked", DOMProperty.HAS_BOOLEAN_VALUE)])
        DOMProperty.loaded).2).1
  = Ret (DOMProperty.checkMask DOMProperty.HAS_BOOLEAN_VALUE
           DOMProperty.HAS_BOOLEAN_VALUE
         || DOMProperty.checkMask DOMProperty.HAS_BOOLEAN_VALUE
              DOMProperty.HAS_STRING_BOOLEAN_VALUE
         || DOMProperty.checkMask DOMProperty.HAS_BOOLEAN_VALUE
              DOMProperty.HAS_OVERLOADED_BOOLEAN_VALUE).
Proof.
  apply (@shouldSetAttribute_boolean_after_injection ascii_host
           (config [(js "checked", DOMProperty.HAS_BOOLEAN_VALUE)])).
  - by vm_compute.
  - apply (bool_decide_unpack _). by vm_compute.
  - apply (bool_decide_unpack _). by vm_compute.
  - apply Forall_cons. split; [by vm_compute|apply Forall_nil_2].
  - apply list_elem_of_singleton. reflexivity.
  - apply (bool_decide_unpack _). by vm_compute.
  - apply (bool_decide_unpack _). by vm_compute.
  - intros (c0 & c1 & rest & Heq & H0 & _).
    injection Heq as <- _. destruct H0 as [H0|H0]; discriminate H0.
Defined.

(** ** The validator of attribute names *)

Section validator.
Context `{Host}.

(** The five ways a call of [isAttributeNameSafe] can end, in any state. *)
Lemma isAttributeNameSafe_outcomes (D : Exports.t) (name : jsstring)
    (h : heap) :
  (∃ e, DOMMarkupOperations.isAttributeNameSafe D name h = (Throw e, h))
  ∨ (is_Some (validatedAttributeNameCache h !! name)
     ∧ DOMMarkupOperations.isAttributeNameSafe D name h = (Ret true, h))
  ∨ (is_Some (illegalAttributeNameCache h !! name)
     ∧ DOMMarkupOperations.isAttributeNameSafe D name h = (Ret false, h))
  ∨ (DOMMarkupOperations.VALID_ATTRIBUTE_NAME_REGEX D name = true
     ∧ (DOMMarkupOperations.isAttributeNameSafe D name h).1 = Ret true
     ∧ validatedAttributeNameCache
         (DOMMarkupOperations.isAttributeNameSafe D name h).2
       = obj_set (validatedAttributeNameCache h) name true
     ∧ illegalAttributeNameCache
         (DOMMarkupOperations.isAttributeNameSafe D name h).2
       = illegalAttributeNameCache h
     ∧ properties (DOMMarkupOperations.isAttributeNameSafe D name h).2
       = properties h
     ∧ console (DOMMarkupOperations.isAttributeNameSafe D name h).2
       = console h)
  ∨ (DOMMarkupOperations.VALID_ATTRIBUTE_NAME_REGEX D name = false
     ∧ (DOMMarkupOperations.isAttributeNameSafe D name h).1 = Ret false
     ∧ illegalAttributeNameCache
         (DOMMarkupOperations.isAttributeNameSafe D name h).2
       = obj_set (illegalAttributeNameCache h) name true
     ∧ validatedAttributeNameCache
         (DOMMarkupOperations.isAttributeNameSafe D name h).2
       = validatedAttributeNameCache h
     ∧ properties (DOMMarkupOperations.isAttributeNameSafe D name h).2
       = properties h).
Proof.
  unfold DOMMarkupOperations.isAttributeNameSafe. run.
  unfold obj_hasOwnProperty.
  destruct (validatedAttributeNameCache h !! js "hasOwnProperty");
    [left; by eexists|].
  case_bool_decide as Hval; [right; left; done|].
  destruct (illegalAttributeNameCache h !! js "hasOwnProperty");
    [left; by eexists|].
  case_bool_decide as Hill; [right; right; left; done|].
  right. right. right.
  unfold DOMMarkupOperations.VALID_ATTRIBUTE_NAME_REGEX_test.
  destruct (DOMMarkupOperations.VALID_ATTRIBUTE_NAME_REGEX D name); simpl.
  - left. done.
  - right. unfold DOMMarkupOperations.warning. by destruct __DEV__.
Qed.

Lemma obj_set_is_Some {V} (o : gmap jsstring V) (k k' : jsstring) (v : V) :
  is_Some (obj_set o k v !! k') → k' = k ∨ is_Some (o !! k').
Proof.
  unfold obj_set. case_decide; [by right|].
  rewrite lookup_insert. case_decide; [by left|by right].
Qed.

Lemma obj_set_keeps {V} (o : gmap jsstring V) (k k' : jsstring) (v : V) :
  is_Some (o !! k') → is_Some (obj_set o k v !! k').
Proof.
  unfold obj_set. case_decide; [done|].
  rewrite lookup_insert. by case_decide.
Qed.

(** A call keeps the caches in agreement with the regular expression, in
    any state and whether it returns or throws. *)
Lemma isAttributeNameSafe_keeps_consistent (D : Exports.t) (name : jsstring)
    (h : heap) :
  cache_consistent D h →
  cache_consistent D (DOMMarkupOperations.isAttributeNameSafe D name h).2.
Proof.
  intros [Hv Hi].
  destruct (isAttributeNameSafe_outcomes D name h)
    as [[e ->]|[[_ ->]|[[_ ->]|[Hcase|Hcase]]]]; try done.
  - destruct Hcase as (Hre & _ & Hval & Hill & _).
    split; [rewrite Hval|by rewrite Hill].
    intros n Hn. apply obj_set_is_Some in Hn as [->|Hn]; [done|by apply Hv].
  - destruct Hcase as (Hre & _ & Hill & Hval & _).
    split; [by rewrite Hval|rewrite Hill].
    intros n Hn. apply obj_set_is_Some in Hn as [->|Hn]; [done|by apply Hi].
Qed.

Lemma isAttributeNameSafe_verdict (D : Exports.t) (name : jsstring)
    (h : heap) (verdict : bool) :
  cache_consistent D h →
  (DOMMarkupOperations.isAttributeNameSafe D name h).1 = Ret verdict →
  verdict = DOMMarkupOperations.VALID_ATTRIBUTE_NAME_REGEX D name.
Proof.
  intros [Hv Hi] Hret.
  destruct (isAttributeNameSafe_outcomes D name h)
    as [[e He]|[[Hc He]|[[Hc He]|[Hcase|Hcase]]]].
  - rewrite He in Hret. discriminate.
  - rewrite He in Hret. injection Hret as <-. symmetry. by apply Hv.
  - rewrite He in Hret. injection Hret as <-. symmetry. by apply Hi.
  - destruct Hcase as (Hre & Hr & _). rewrite Hr in Hret.
    injection Hret as <-. done.
  - destruct Hcase as (Hre & Hr & _). rewrite Hr in Hret.
    injection Hret as <-. done.
Qed.

(** X15.  The verdict is never wrong.  In a state whose caches agree with
    the regular expression, whatever [isAttributeNameSafe] returns is the
    test of the name, for every name, ['hasOwnProperty'] and ['__proto__']
    included. *)
Theorem isAttributeNameSafe_sound (D : Exports.t) (name : jsstring)
    (h : heap) (verdict : bool) :
  cache_consistent D h →
  (DOMMarkupOperations.isAttributeNameSafe D name h).1 = Ret verdict →
  verdict = DOMMarkupOperations.VALID_ATTRIBUTE_NAME_REGEX D name.
Proof. apply isAttributeNameSafe_verdict. Qed.

(** X17.  The caches only grow, and the validator writes nothing else than the
    caches and the console: a name that is cached stays cached, in the same
    cache, and the registry is left as it was. *)
Theorem isAttributeNameSafe_only_adds (D : Exports.t) (name : jsstring)
    (h : heap) :
  (∀ n, is_Some (validatedAttributeNameCache h !! n) →
        is_Some (validatedAttributeNameCache
                   (DOMMarkupOperations.isAttributeNameSafe D name h).2 !! n))
  ∧ (∀ n, is_Some (illegalAttributeNameCache h !! n) →
          is_Some (illegalAttributeNameCache
                     (DOMMarkupOperations.isAttributeNameSafe D name h).2
                   !! n))
  ∧ properties (DOMMarkupOperations.isAttributeNameSafe D name h).2
    = properties h.
Proof.
  destruct (isAttributeNameSafe_outcomes D name h)
    as [[e ->]|[[_ ->]|[[_ ->]|[Hcase|Hcase]]]]; try done.
  - destruct Hcase as (_ & _ & Hval & Hill & Hp & _).
    rewrite Hval, Hill, Hp. split_and!; [|done|done].
    intros n. apply obj_set_keeps.
  - destruct Hcase as (_ & _ & Hill & Hval & Hp).
    rewrite Hval, Hill, Hp. split_and!; [done| |done].
    intros n. apply obj_set_keeps.
Qed.

Lemma validate_all_consistent (D : Exports.t) (names : list jsstring) :
  ∀ h, cache_consistent D h → cache_consistent D (validate_all D names h).
Proof.
  induction names as [|name names IH]; intros h Hc; [done|].
  simpl. apply IH. by apply isAttributeNameSafe_keeps_consistent.
Qed.

(** X18.  Whatever names have been validated since the modules were loaded, in
    whatever order and whether the calls returned or threw, every validated
    name passes the regular expression, every illegal name fails it, and no
    name is in both caches. *)
Theorem caches_agree_with_regex (D : Exports.t) (names : list jsstring)
    (name : jsstring) :
  (is_Some (validatedAttributeNameCache
              (validate_all D names DOMProperty.loaded) !! name) →
   DOMMarkupOperations.VALID_ATTRIBUTE_NAME_REGEX D name = true)
  ∧ (is_Some (illegalAttributeNameCache
                (validate_all D names DOMProperty.loaded) !! name) →
     DOMMarkupOperations.VALID_ATTRIBUTE_NAME_REGEX D name = false)
  ∧ ¬ (is_Some (validatedAttributeNameCache
                  (validate_all D names DOMProperty.loaded) !! name)
       ∧ is_Some (illegalAttributeNameCache
                    (validate_all D names DOMProperty.loaded) !! name)).
Proof.
  assert (Hinit : cache_consistent D DOMProperty.loaded).
  { split; intros n Hn; exfalso; revert Hn.
    - assert (Hempty : validatedAttributeNameCache DOMProperty.loaded = ∅)
        by by vm_compute.
      rewrite Hempty, lookup_empty. by intros [? ?].
    - assert (Hempty : illegalAttributeNameCache DOMProperty.loaded = ∅)
        by by vm_compute.
      rewrite Hempty, lookup_empty. by intros [? ?]. }
  destruct (validate_all_consistent D names _ Hinit) as [Hv Hi].
  split_and!; [apply Hv|apply Hi|].
  intros [Hin1 Hin2]. apply Hv in Hin1. apply Hi in Hin2. congruence.
Qed.
End validator.

Lemma isAttributeNameSafe_sound_witness :
  true
  = DOMMarkupOperations.VALID_ATTRIBUTE_NAME_REGEX
      (@DOMProperty_exports ascii_host) (js "data-foo").
Proof.
  apply (@isAttributeNameSafe_sound ascii_host (@DOMProperty_exports ascii_host)
           (js "data-foo") DOMProperty.empty_heap true).
  - split; intros n [x Hx]; simpl in Hx; by rewrite lookup_empty in Hx.
  - by vm_compute.
Defined.

(** ** What the regular expression lets through *)

Lemma in_class_ascii (c : N) :
  (c < 128)%N →
  DOMMarkupOperations.in_class DOMProperty.ATTRIBUTE_NAME_START_CHAR c
  = ascii_name_start c
  ∧ DOMMarkupOperations.in_class DOMProperty.ATTRIBUTE_NAME_CHAR c
    = ascii_name_char c.
Proof.
  intros Hc.
  assert (Hall : Forall
    (λ c, DOMMarkupOperations.in_class DOMProperty.ATTRIBUTE_NAME_START_CHAR c
          = ascii_name_start c
          ∧ DOMMarkupOperations.in_class DOMProperty.ATTRIBUTE_NAME_CHAR c
            = ascii_name_char c)
    (N.of_nat <$> seq 0 128)).
  { apply (bool_decide_unpack _). by vm_compute. }
  rewrite Forall_forall in Hall. apply Hall.
  apply list_elem_of_fmap. exists (N.to_nat c). split; [lia|].
  apply elem_of_seq. lia.
Qed.

Lemma in_class_start_is_char (c : N) :
  DOMMarkupOperations.in_class DOMProperty.ATTRIBUTE_NAME_START_CHAR c = true →
  DOMMarkupOperations.in_class DOMProperty.ATTRIBUTE_NAME_CHAR c = true.
Proof.
  unfold DOMMarkupOperations.in_class, DOMProperty.ATTRIBUTE_NAME_CHAR.
  intros Hs. rewrite existsb_app, Hs. done.
Qed.

Section accepted_names.
Context `{Host}.

(** X19.  A name the regular expression accepts is not empty, and its characters
    below 128 are letters, digits, [:], [_], [-] and [.], the first one
    neither a digit, [-] nor [.]: no space, quote, [=], [<], [>] or [/].
    On a name made of characters below 128 the test is exactly that. *)
Theorem VALID_ATTRIBUTE_NAME_REGEX_ascii (name : jsstring) :
  (DOMMarkupOperations.VALID_ATTRIBUTE_NAME_REGEX DOMProperty_exports name
   = true →
   name ≠ []
   ∧ (∀ c, c ∈ name → (c < 128)%N → ascii_name_char c = true)
   ∧ (∀ c, head name = Some c → (c < 128)%N → ascii_name_start c = true))
  ∧ (Forall (λ c, (c < 128)%N) name →
     DOMMarkupOperations.VALID_ATTRIBUTE_NAME_REGEX DOMProperty_exports name
     = match name with
       | [] => false
       | c :: rest => ascii_name_start c && forallb ascii_name_char rest
       end).
Proof.
  unfold DOMMarkupOperations.VALID_ATTRIBUTE_NAME_REGEX.
  cbn [Exports.ATTRIBUTE_NAME_START_CHAR Exports.ATTRIBUTE_NAME_CHAR
       DOMProperty_exports].
  destruct name as [|c0 rest]; [by split|].
  split.
  - intros Hre. apply andb_true_iff in Hre as [Hstart Hrest].
    rewrite forallb_forall in Hrest.
    split_and!; [done| |].
    + intros c Hin Hc. destruct (in_class_ascii c Hc) as [_ <-].
      apply elem_of_cons in Hin as [->|Hin].
      * by apply in_class_start_is_char.
      * apply Hrest. by apply list_elem_of_In.
    + intros c [= <-] Hc. by destruct (in_class_ascii c0 Hc) as [<- _].
  - intros Hascii. apply Forall_cons in Hascii as [Hc0 Hrest].
    destruct (in_class_ascii c0 Hc0) as [-> _]. f_equal.
    induction rest as [|c rest IH]; [done|].
    apply Forall_cons in Hrest as [Hc Hrest]. cbn [forallb].
    destruct (in_class_ascii c Hc) as [_ ->]. f_equal. by apply IH.
Qed.

(** X20.  What [createMarkupForCustomAttribute] lets out.  In a state whose
    caches agree with the regular expression, a returned string is empty, or
    it is the name, [=] and the quoted value for a name that passes the
    regular expression and a value that is neither [null] nor [undefined]. *)
Theorem createMarkupForCustomAttribute_output (name : jsstring)
    (value : jsvalue) (h : heap) (markup : jsstring) :
  cache_consistent DOMProperty_exports h →
  (DOMMarkupOperations.createMarkupForCustomAttribute DOMProperty_exports
     name value h).1 = Ret markup →
  markup = js ""
  ∨ (DOMMarkupOperations.VALID_ATTRIBUTE_NAME_REGEX DOMProperty_exports name
     = true
     ∧ loosely_null value = false
     ∧ markup = name ++ js "=" ++ quoteAttributeValueForBrowser value).
Proof.
  intros Hcons. unfold DOMMarkupOperations.createMarkupForCustomAttribute.
  unfold mbind at 1. unfold M_bind.
  pose proof (isAttributeNameSafe_verdict DOMProperty_exports name h)
    as Hsound.
  destruct (DOMMarkupOperations.isAttributeNameSafe _ name h)
    as [[safe|e] h']; [|done].
  specialize (Hsound safe Hcons eq_refl).
  destruct safe; simpl; [|intros [= <-]; by left].
  destruct (loosely_null value); simpl; intros [= <-]; [by left|].
  right. by rewrite <- Hsound.
Qed.

(** X21.  A state reached by rendering custom attributes keeps its caches in
    agreement with the regular expression. *)
Theorem createMarkupForCustomAttribute_keeps_consistent (name : jsstring)
    (value : jsvalue) (h : heap) :
  cache_consistent DOMProperty_exports h →
  cache_consistent DOMProperty_exports
    (DOMMarkupOperations.createMarkupForCustomAttribute DOMProperty_exports
       name value h).2.
Proof.
  intros Hcons.
  pose proof (isAttributeNameSafe_keeps_consistent DOMProperty_exports name h
                Hcons) as Hkeep.
  unfold DOMMarkupOperations.createMarkupForCustomAttribute.
  unfold mbind at 1. unfold M_bind.
  destruct (DOMMarkupOperations.isAttributeNameSafe _ name h)
    as [[safe|e] h']; [|done].
  by destruct (negb safe || loosely_null value).
Qed.
End accepted_names.

Lemma VALID_ATTRIBUTE_NAME_REGEX_ascii_witness :
  DOMMarkupOperations.VALID_ATTRIBUTE_NAME_REGEX
    (@DOMProperty_exports ascii_host) (js "1bad-name")
  = ascii_name_start 49 && forallb ascii_name_char (js "bad-name").
Proof.
  apply (@VALID_ATTRIBUTE_NAME_REGEX_ascii ascii_host (js "1bad-name")).
  apply (bool_decide_unpack _). by vm_compute.
Defined.

Lemma createMarkupForCustomAttribute_output_witness :
  js "data-x=" ++ [34%N] ++ js "v" ++ [34%N] = js ""
  ∨ (DOMMarkupOperations.VALID_ATTRIBUTE_NAME_REGEX
       (@DOMProperty_exports ascii_host) (js "data-x") = true
     ∧ loosely_null (VString (js "v")) = false
     ∧ js "data-x=" ++ [34%N] ++ js "v" ++ [34%N]
       = js "data-x" ++ js "="
         ++ @quoteAttributeValueForBrowser ascii_host (VString (js "v"))).
Proof.
  apply (@createMarkupForCustomAttribute_output ascii_host (js "data-x")
           (VString (js "v")) DOMProperty.empty_heap).
  - split; intros n [x Hx]; simpl in Hx; by rewrite lookup_empty in Hx.
  - by vm_compute.
Defined.

Lemma createMarkupForCustomAttribute_keeps_consistent_witness :
  cache_consistent (@DOMProperty_exports ascii_host)
    (@DOMMarkupOperations.createMarkupForCustomAttribute ascii_host
       (@DOMProperty_exports ascii_host) (js "data-x") (VString (js "v"))
       DOMProperty.empty_heap).2.
Proof.
  apply (@createMarkupForCustomAttribute_keeps_consistent ascii_host).
  split; intros n [x Hx]; simpl in Hx; by rewrite lookup_empty in Hx.
Defined.

(** ** The name tables *)

Lemma getAttributeName_run `{Host} (propName : jsstring) :
  DOMProperty.getAttributeName propName
  = Ret (default (toLowerCase propName)
           (DOMProperty.attributeNames !! propName)).
Proof.
  unfold DOMProperty.getAttributeName, obj_get.
  rewrite (obj_hasOwnProperty_run _ _ _ attributeNames_hasOwnProperty).
  by destruct (DOMProperty.attributeNames !! propName).
Qed.

Section tables.
Context `{Host}.

(** X22.  Round trip over the SVG list.  The names given to two attributes of
    the list differ, and [getAttributeName] takes each of them back to the
    attribute it was made from. *)
Theorem getAttributeName_of_camelized :
  NoDup svg_react_names
  ∧ Forall
      (λ svgAttributeName,
         DOMProperty.getAttributeName
           (DOMProperty.replace_CAMELIZE svgAttributeName)
         = Ret svgAttributeName)
      DOMProperty.svgAttributeNames.
Proof.
  split; [apply (bool_decide_unpack _); by vm_compute|].
  assert (Hall : Forall
    (λ a, DOMProperty.attributeNames !! DOMProperty.replace_CAMELIZE a = Some a)
    DOMProperty.svgAttributeNames).
  { apply (bool_decide_unpack _). by vm_compute. }
  eapply Forall_impl; [exact Hall|].
  intros a Ha. simpl. rewrite getAttributeName_run.
  f_equal. rewrite Ha. reflexivity.
Qed.

(** X23.  Every attribute name of the table passes the regular expression of
    [isAttributeNameSafe]. *)
Theorem attributeNames_are_safe (propName attributeName : jsstring) :
  DOMProperty.attributeNames !! propName = Some attributeName →
  DOMMarkupOperations.VALID_ATTRIBUTE_NAME_REGEX DOMProperty_exports
    attributeName = true.
Proof.
  assert (Hall : map_Forall
    (λ _ a, DOMMarkupOperations.VALID_ATTRIBUTE_NAME_REGEX DOMProperty_exports
              a = true)
    DOMProperty.attributeNames).
  { apply (bool_decide_unpack _). by vm_compute. }
  apply Hall.
Qed.

(** X24.  The two tables agree.  A name has the XLink namespace exactly when its
    attribute name starts with [xlink:], the XML namespace exactly when it
    starts with [xml:], and a name without attribute name in the table has
    no namespace. *)
Theorem getAttributeNamespace_follows_prefix (propName : jsstring) :
  match DOMProperty.attributeNames !! propName with
  | Some attributeName =>
      (js "xlink:" `prefix_of` attributeName
       ↔ DOMProperty.getAttributeNamespace propName
         = VString DOMProperty.XLINK_NAMESPACE)
      ∧ (js "xml:" `prefix_of` attributeName
         ↔ DOMProperty.getAttributeNamespace propName
           = VString DOMProperty.XML_NAMESPACE)
  | None => DOMProperty.getAttributeNamespace propName = VNull
  end.
Proof.
  destruct (DOMProperty.attributeNames !! propName) as [a|] eqn:Hlook.
  - assert (Hall : map_Forall
      (λ k a,
         (js "xlink:" `prefix_of` a
          ↔ DOMProperty.getAttributeNamespace k
            = VString DOMProperty.XLINK_NAMESPACE)
         ∧ (js "xml:" `prefix_of` a
            ↔ DOMProperty.getAttributeNamespace k
              = VString DOMProperty.XML_NAMESPACE))
      DOMProperty.attributeNames).
    { apply (bool_decide_unpack _). by vm_compute. }
    by apply Hall.
  - unfold DOMProperty.getAttributeNamespace.
    repeat (case_bool_decide;
            [exfalso; subst; vm_compute in Hlook; discriminate Hlook|]).
    reflexivity.
Qed.
End tables.

Lemma attributeNames_are_safe_witness :
  DOMMarkupOperations.VALID_ATTRIBUTE_NAME_REGEX
    (@DOMProperty_exports ascii_host) (js "xlink:href") = true.
Proof.
  apply (@attributeNames_are_safe ascii_host (js "xlinkHref")).
  by vm_compute.
Defined.

(** ** Camel case *)

Lemma replace_CAMELIZE_cons2 (c d : N) (rest : jsstring) :
  DOMProperty.replace_CAMELIZE (c :: d :: rest)
  = if camel_pair c d
    then (d - 32)%N :: DOMProperty.replace_CAMELIZE rest
    else c :: DOMProperty.replace_CAMELIZE (d :: rest).
Proof. unfold camel_pair. simpl. by destruct (_ && _). Qed.

Lemma has_camel_pair_cons2 (c d : N) (rest : jsstring) :
  has_camel_pair (c :: d :: rest)
  = camel_pair c d || has_camel_pair (d :: rest).
Proof. reflexivity. Qed.

Lemma capital_no_pair (d e : N) :
  DOMProperty.is_az d = true → camel_pair (d - 32) e = false.
Proof.
  unfold DOMProperty.is_az, camel_pair. intros Haz.
  apply andb_true_iff in Haz as [Hlo Hhi].
  apply N.leb_le in Hlo, Hhi.
  rewrite !bool_decide_eq_false_2 by lia. done.
Qed.

Lemma replace_CAMELIZE_shape (n : nat) :
  ∀ s : jsstring,
    length s ≤ n →
    has_camel_pair (DOMProperty.replace_CAMELIZE s) = false
    ∧ (∀ c, head (DOMProperty.replace_CAMELIZE s) = Some c →
            DOMProperty.is_az c = true → head s = Some c)
    ∧ length (DOMProperty.replace_CAMELIZE s) ≤ length s.
Proof.
  induction n as [|n IH]; intros s Hlen.
  { destruct s; [done|simpl in Hlen; lia]. }
  destruct s as [|c [|d rest]]; [done|done|].
  rewrite replace_CAMELIZE_cons2.
  destruct (camel_pair c d) eqn:Hpair.
  - destruct (IH rest) as (Hno & _ & Hle); [simpl in *; lia|].
    assert (Haz : DOMProperty.is_az d = true).
    { unfold camel_pair in Hpair. by apply andb_true_iff in Hpair as [_ ?]. }
    split_and!.
    + destruct (DOMProperty.replace_CAMELIZE rest) as [|e r] eqn:HR; [done|].
      rewrite has_camel_pair_cons2, (capital_no_pair d e Haz). exact Hno.
    + intros c' [= <-] Haz'. exfalso.
      unfold DOMProperty.is_az in Haz, Haz'.
      apply andb_true_iff in Haz as [Hlo Hhi].
      apply andb_true_iff in Haz' as [Hlo' Hhi'].
      apply N.leb_le in Hlo, Hhi, Hlo', Hhi'. lia.
    + simpl in *. lia.
  - destruct (IH (d :: rest)) as (Hno & Hhead & Hle); [simpl in *; lia|].
    split_and!.
    + destruct (DOMProperty.replace_CAMELIZE (d :: rest)) as [|e r] eqn:HR;
        [done|].
      rewrite has_camel_pair_cons2, Hno, orb_false_r.
      destruct (camel_pair c e) eqn:Hce; [|done].
      assert (Haz : DOMProperty.is_az e = true).
      { unfold camel_pair in Hce. by apply andb_true_iff in Hce as [_ ?]. }
      specialize (Hhead e eq_refl Haz). injection Hhead as ->. congruence.
    + by intros c' [= <-] _.
    + simpl in *. lia.
Qed.

Lemma replace_CAMELIZE_fixed (s : jsstring) :
  has_camel_pair s = false → DOMProperty.replace_CAMELIZE s = s.
Proof.
  induction s as [|c s IH]; [done|].
  destruct s as [|d rest]; [done|].
  intros Hno. rewrite has_camel_pair_cons2 in Hno.
  apply orb_false_elim in Hno as [Hcd Hrest].
  rewrite replace_CAMELIZE_cons2, Hcd. f_equal. by apply IH.
Qed.

(** X25.  The camel-case replacement leaves no [-] or [:] in front of a letter
    of [a-z], leaves a string without such a pair as it is, changes nothing
    when applied again, and never lengthens. *)
Theorem replace_CAMELIZE_idempotent (s : jsstring) :
  has_camel_pair (DOMProperty.replace_CAMELIZE s) = false
  ∧ (has_camel_pair s = false → DOMProperty.replace_CAMELIZE s = s)
  ∧ DOMProperty.replace_CAMELIZE (DOMProperty.replace_CAMELIZE s)
    = DOMProperty.replace_CAMELIZE s
  ∧ length (DOMProperty.replace_CAMELIZE s) ≤ length s.
Proof.
  destruct (replace_CAMELIZE_shape (length s) s) as (Hno & _ & Hle); [done|].
  split_and!; [done|apply replace_CAMELIZE_fixed| |done].
  by apply replace_CAMELIZE_fixed.
Qed.

(** ** The [value] attribute *)

Section value_attribute.
Context (ToString : jsvalue → result jsstring).

(** X26.  [setDOMValueAttribute] touches the attribute [value] and nothing
    else. *)
Theorem setDOMValueAttribute_touches_value_only
    (node node' : DOMProperty.Node) (value : jsvalue) (name : jsstring) :
  DOMProperty.setDOMValueAttribute ToString node value = Ret node' →
  name ≠ js "value" →
  DOMProperty.getAttribute node' name = DOMProperty.getAttribute node name.
Proof.
  unfold DOMProperty.setDOMValueAttribute, DOMProperty.getAttribute.
  intros Hrun Hname.
  destruct (loosely_null value).
  { injection Hrun as <-. simpl. by rewrite lookup_delete_ne. }
  assert (Hset : ∀ n', match ToString value with
                       | Ret s => Ret (DOMProperty.setAttribute node
                                         (js "value") s)
                       | Throw e => Throw e
                       end = Ret n' →
                       DOMProperty.attributes n' !! name
                       = DOMProperty.attributes node !! name).
  { intros n' Hn'. destruct (ToString value); [|done].
    injection Hn' as <-. simpl. by rewrite lookup_insert_ne. }
  destruct (_ || _); [by apply Hset|].
  destruct (DOMProperty.validity node) as [bad|].
  - destruct (negb bad && negb (DOMProperty.active node)); [by apply Hset|].
    by injection Hrun as <-.
  - by injection Hrun as <-.
Qed.

(** X27.  What becomes of the attribute [value].  With [null] or [undefined] it
    is removed, and the value is not converted.  Otherwise a number input
    that has the attribute and is without validity state, reports bad input
    or holds the focus is left as it is, again without conversion; and every
    other node gets the converted value as its attribute, or the exception
    of the conversion. *)
Theorem setDOMValueAttribute_decides (node : DOMProperty.Node)
    (value : jsvalue) :
  (loosely_null value = true →
   ∃ node', DOMProperty.setDOMValueAttribute ToString node value = Ret node'
            ∧ DOMProperty.hasAttribute node' (js "value") = false)
  ∧ (loosely_null value = false → held_back node = true →
     DOMProperty.setDOMValueAttribute ToString node value = Ret node)
  ∧ (loosely_null value = false → held_back node = false →
     match ToString value with
     | Ret s =>
         ∃ node',
           DOMProperty.setDOMValueAttribute ToString node value = Ret node'
           ∧ DOMProperty.getAttribute node' (js "value") = Some s
     | Throw e =>
         DOMProperty.setDOMValueAttribute ToString node value = Throw e
     end).
Proof.
  unfold DOMProperty.setDOMValueAttribute, held_back.
  split_and!.
  - intros ->. eexists. split; [done|].
    unfold DOMProperty.hasAttribute. simpl.
    rewrite lookup_delete_eq. apply bool_decide_eq_false_2. by intros [? ?].
  - intros -> Hheld.
    apply andb_true_iff in Hheld as [Hheld Hval].
    apply andb_true_iff in Hheld as [-> ->]. simpl.
    destruct (DOMProperty.validity node) as [bad|]; [|done].
    apply orb_true_iff in Hval as [-> | ->]; [done|].
    by rewrite andb_false_r.
  - intros -> Hfree.
    assert (Hset : match ToString value with
      | Ret s =>
          ∃ node',
            match ToString value with
            | Ret s => Ret (DOMProperty.setAttribute node (js "value") s)
            | Throw e => Throw e
            end = Ret node'
            ∧ DOMProperty.getAttribute node' (js "value") = Some s
      | Throw e =>
          match ToString value with
          | Ret s => Ret (DOMProperty.setAttribute node (js "value") s)
          | Throw e => Throw e
          end = Throw e
      end).
    { destruct (ToString value) as [s|e]; [|done].
      eexists. split; [done|].
      unfold DOMProperty.getAttribute. simpl. by rewrite lookup_insert_eq. }
    destruct (strictly_string (DOMProperty.type node) (js "number"));
      [|exact Hset].
    destruct (DOMProperty.hasAttribute node (js "value")); [|exact Hset].
    simpl in *.
    destruct (DOMProperty.validity node) as [bad|]; [|done].
    apply orb_false_elim in Hfree as [-> ->]. exact Hset.
Qed.
End value_attribute.

(** A concrete conversion for strings, and a focused number input. *)
Lemma setDOMValueAttribute_touches_value_only_witness :
  DOMProperty.getAttribute
    (DOMProperty.setAttribute
       {| DOMProperty.type := VString (js "text");
          DOMProperty.attributes := {[ js "id" := js "a" ]};
          DOMProperty.validity := None;
          DOMProperty.active := false |}
       (js "value") (js "v"))
    (js "id")
  = Some (js "a").
Proof.
  rewrite (setDOMValueAttribute_touches_value_only
             (λ v, match v with VString s => Ret s | _ => Ret [] end)
             {| DOMProperty.type := VString (js "text");
                DOMProperty.attributes := {[ js "id" := js "a" ]};
                DOMProperty.validity := None;
                DOMProperty.active := false |}
             _ (VString (js "v")) (js "id")).
  - by vm_compute.
  - by vm_compute.
  - apply (bool_decide_unpack _). by vm_compute.
Defined.

Lemma setDOMValueAttribute_decides_witness :
  DOMProperty.setDOMValueAttribute
    (λ v, match v with VString s => Ret s | _ => Ret [] end)
    {| DOMProperty.type := VString (js "number");
       DOMProperty.attributes := {[ js "value" := js "1" ]};
       DOMProperty.validity := Some false;
       DOMProperty.active := true |}
    (VString (js "1."))
  = Ret {| DOMProperty.type := VString (js "number");
           DOMProperty.attributes := {[ js "value" := js "1" ]};
           DOMProperty.validity := Some false;
           DOMProperty.active := true |}.
Proof.
  apply (setDOMValueAttribute_decides
           (λ v, match v with VString s => Ret s | _ => Ret [] end)).
  - reflexivity.
  - by vm_compute.
Defined.

(** ** The statements above at concrete inputs *)

Lemma injectDOMPropertyConfig_keeps_one_mode_witness :
  one_mode (DOMProperty.decode DOMProperty.HAS_BOOLEAN_VALUE).
Proof.
  apply (injectDOMPropertyConfig_keeps_one_mode
           (config [(js "checked", DOMProperty.HAS_BOOLEAN_VALUE)])
           DOMProperty.empty_heap) with (js "checked").
  - intros name pi Hlook. simpl in Hlook. rewrite lookup_empty in Hlook.
    discriminate Hlook.
  - by vm_compute.
Defined.

Lemma injectDOMPropertyConfig_registered_name_witness :
  configuration_error
    (DOMProperty.injectDOMPropertyConfig
       (config [(js "strokeWidth", 0%Z)]) DOMProperty.loaded).
Proof.
  apply (injectDOMPropertyConfig_registered_name _ _ (js "strokeWidth")).
  - by vm_compute.
  - apply (bool_decide_unpack _). by vm_compute.
  - apply (bool_decide_unpack _). by vm_compute.
  - apply (bool_decide_unpack _). by vm_compute.
  - by vm_compute.
Defined.

Lemma isAttributeNameSafe_memoised_witness :
  (@DOMMarkupOperations.isAttributeNameSafe ascii_host
     (@DOMProperty_exports ascii_host) (js "data-foo")
     DOMProperty.empty_heap).1
  = Ret (DOMMarkupOperations.VALID_ATTRIBUTE_NAME_REGEX
           (@DOMProperty_exports ascii_host) (js "data-foo")).
Proof.
  destruct (@isAttributeNameSafe_memoised ascii_host
              (@DOMProperty_exports ascii_host) (js "data-foo")
              DOMProperty.empty_heap) as (Hverdict & _).
  - split; simpl; apply lookup_empty.
  - split; intros n [x Hx]; simpl in Hx; by rewrite lookup_empty in Hx.
  - apply (bool_decide_unpack _). by vm_compute.
  - apply (bool_decide_unpack _). by vm_compute.
  - exact Hverdict.
Defined.
